(** * nqptp-utilities: sockets, clock identity and frame dumps

    A shallow embedding of [nqptp-utilities.c]:
    - [open_sockets_at_port] (the spec's [open_sockets]),
    - [debug_print_buffer]   (the spec's [dump]),
    - [get_self_clock_id]    (the spec's [derive_self_identity]).

    C integers are [Z] with their wrap-around written out, memory objects are
    lists indexed with stdpp's lookup, the operating system is an interface
    ([OS]) whose calls thread an abstract kernel state, and [die] ends a run
    with [Exit]. *)

From Stdlib Require Import ZArith String Ascii List Lia Bool.
From Stdlib.Strings Require Import Byte.
From stdpp Require Import base list strings pretty.

Open Scope Z_scope.

(** ** Implementation-defined parameters of the C platform *)

Record platform := {
  char_signed : bool;   (* is plain [char] a signed type? *)
  size_t_bits : Z       (* width of [size_t] *)
}.

Definition linux_x86_64 : platform := {| char_signed := true;  size_t_bits := 64 |}.
Definition linux_aarch64 : platform := {| char_signed := false; size_t_bits := 64 |}.
Definition linux_armhf : platform := {| char_signed := false; size_t_bits := 32 |}.

Definition UINT_MAX : Z := 2 ^ 32 - 1.
Definition SIZE_MAX (plat : platform) : Z := 2 ^ size_t_bits plat - 1.

(** Arithmetic in [unsigned int] and in [size_t]. *)
Definition uint (z : Z) : Z := z mod 2 ^ 32.
Definition size_t (plat : platform) (z : Z) : Z := z mod 2 ^ size_t_bits plat.

(** ** Constants of the system headers (Linux) *)

Definition AF_UNSPEC : Z := 0.
Definition AF_INET : Z := 2.
Definition AF_INET6 : Z := 10.
Definition AF_PACKET : Z := 17.
Definition SOCK_DGRAM : Z := 2.
Definition AI_PASSIVE : Z := 1.
Definition IPPROTO_UDP : Z := 17.
Definition IPPROTO_IPV6 : Z := 41.
Definition IPV6_V6ONLY : Z := 26.
Definition SOL_SOCKET : Z := 1.
Definition SO_TIMESTAMPING : Z := 37.
Definition SOF_TIMESTAMPING_TX_HARDWARE : Z := Z.shiftl 1 0.
Definition SOF_TIMESTAMPING_TX_SOFTWARE : Z := Z.shiftl 1 1.
Definition SOF_TIMESTAMPING_RX_HARDWARE : Z := Z.shiftl 1 2.
Definition SOF_TIMESTAMPING_RX_SOFTWARE : Z := Z.shiftl 1 3.
Definition SOF_TIMESTAMPING_SOFTWARE : Z := Z.shiftl 1 4.
Definition SOF_TIMESTAMPING_RAW_HARDWARE : Z := Z.shiftl 1 6.
Definition F_GETFL : Z := 3.
Definition F_SETFL : Z := 4.
Definition O_NONBLOCK : Z := 2048.

(** ** Messages, events and the world *)

(** A printf-style message: the format of the source and its arguments. *)
Inductive arg :=
| AStr (s : string)
| AInt (z : Z).

Record message := { fmt : string; args : list arg }.

(** What a run leaves behind: the system calls it made, with their results,
    and the lines it handed to [debug]. *)
Inductive event :=
| EvSocket (domain type protocol : Z) (result : Z)
| EvSetsockopt (fd level optname optval : Z) (result : Z)
| EvBind (fd : Z) (addr : list byte) (result : Z)
| EvFcntl (fd cmd flags : Z) (result : Z)
| EvDebug (level : Z) (m : message).

Record world (K : Type) := World { kernel : K; trace : list event }.
Arguments World {K} _ _.
Arguments kernel {K} _.
Arguments trace {K} _.

Definition emit {K} (e : event) (w : world K) : world K :=
  World (kernel w) (trace w ++ [e]).

(** ** Outcomes and the monad of the embedding *)

Inductive result (S A : Type) :=
| Ok (a : A) (s : S)            (* the code went on, with value [a] *)
| Exit (m : message) (s : S)    (* [die]: the process ended with message [m] *)
| Fault (s : S)                 (* an access outside an object *)
| Timeout.                      (* the fuel of a loop ran out *)
Arguments Ok {S A} _ _.
Arguments Exit {S A} _ _.
Arguments Fault {S A} _.
Arguments Timeout {S A}.

Definition M (S A : Type) : Type := S -> result S A.

Definition ret {S A} (a : A) : M S A := fun s => Ok a s.

Definition bindM {S A B} (c : M S A) (f : A -> M S B) : M S B :=
  fun s =>
    match c s with
    | Ok a s' => f a s'
    | Exit m s' => Exit m s'
    | Fault s' => Fault s'
    | Timeout => Timeout
    end.

Definition die {S A} (m : message) : M S A := fun s => Exit m s.
Definition fault {S A} : M S A := fun s => Fault s.

Declare Scope c_scope.
Delimit Scope c_scope with C.
Notation "x <- c ;; k" := (bindM c (fun x => k))
  (at level 100, c at next level, k at level 200, right associativity) : c_scope.
Notation "c ;; k" := (bindM c (fun _ => k))
  (at level 100, k at level 200, right associativity) : c_scope.
Open Scope c_scope.

(** The final state of a run that has one. *)
Definition final_state {S A} (r : result S A) : option S :=
  match r with
  | Ok _ s | Exit _ s | Fault s => Some s
  | Timeout => None
  end.

(** The events a run added to the trace of the world [w] it started in. *)
Definition events_since {K A} (w : world K) (r : result (world K) A) : list event :=
  match final_state r with
  | Some w' => drop (length (trace w)) (trace w')
  | None => []
  end.

(** The state a run ends in, [s0] when it has none. *)
Definition state_after {S A} (r : result S A) (s0 : S) : S :=
  match final_state r with
  | Some s => s
  | None => s0
  end.

(** A run that did not end the process. *)
Definition no_exit {S A} (r : result S A) : Prop :=
  match r with
  | Exit _ _ => False
  | _ => True
  end.

(** ** Data of the system interfaces *)

(** [struct addrinfo], the fields the code reads. *)
Record addrinfo := {
  ai_family : Z;
  ai_socktype : Z;
  ai_addr : list byte     (* [ai_addr], [ai_addrlen] bytes long *)
}.

(** The hints the code passes to [getaddrinfo]. *)
Record addrinfo_hints := {
  hint_family : Z;
  hint_socktype : Z;
  hint_flags : Z
}.

(** [struct sockaddr], as the code looks at it: a link-layer address
    ([struct sockaddr_ll], family [AF_PACKET]) or an address of another
    family. *)
Inductive sockaddr :=
| Sockaddr_ll (sll_halen : Z) (sll_addr : list byte)
| Sockaddr_other (sa_family : Z).

Definition sa_family_of (s : sockaddr) : Z :=
  match s with
  | Sockaddr_ll _ _ => AF_PACKET
  | Sockaddr_other f => f
  end.

(** [struct ifaddrs]; [ifa_addr] may be NULL. *)
Record ifaddrs := {
  ifa_name : string;
  ifa_addr : option sockaddr
}.

(** ** The operating system

    Every call takes the kernel state and returns its result and the next
    state; the results are whatever the system answers. *)
Class OS (K : Type) := {
  sys_malloc : Z -> K -> bool * K;
  sys_getaddrinfo : string -> addrinfo_hints -> K -> (Z * list addrinfo) * K;
  sys_socket : Z -> Z -> Z -> K -> Z * K;
  sys_setsockopt : Z -> Z -> Z -> Z -> K -> Z * K;
  sys_bind : Z -> list byte -> K -> Z * K;
  sys_fcntl : Z -> Z -> Z -> K -> Z * K;
  sys_getifaddrs : K -> (Z * list ifaddrs) * K;
  sys_strerror_errno : K -> string;      (* [strerror(errno)] *)
  gai_strerror : Z -> string
}.

(** ** Text helpers *)

(** The double-quote character, for the formats that contain it. *)
Definition dquote : string := String (ascii_of_nat 34) EmptyString.

Definition NUL : ascii := ascii_of_nat 0.

Definition chars (s : string) : list ascii := list_ascii_of_string s.
Definition text (cs : list ascii) : string := string_of_list_ascii cs.

(** ** Character arrays in memory

    A cell of a freshly allocated object holds nothing ([None]) until it is
    written; a store or a load outside the object is a [Fault]. *)
Definition block := list (option ascii).

Definition store (blk : block) (off : nat) (c : ascii) : option block :=
  if (off <? length blk)%nat then Some (<[off := Some c]> blk) else None.

Fixpoint store_chars (blk : block) (off : nat) (cs : list ascii) : option block :=
  match cs with
  | [] => Some blk
  | c :: cs' =>
      match store blk off c with
      | Some blk' => store_chars blk' (S off) cs'
      | None => None
      end
  end.

(** [snprintf(dst, size, "...")] once the text [s] to print is known: at most
    [size - 1] characters of it, then the terminating NUL. *)
Definition snprintf_at (blk : block) (off : nat) (size : Z) (s : string) : option block :=
  if size =? 0 then Some blk
  else store_chars blk off (take (Z.to_nat (size - 1)) (chars s) ++ [NUL]).

(** The C string that starts at the head of [cells]: the characters before the
    first NUL. [None] when a cell was never written or the object ends first. *)
Fixpoint cstring (cells : block) : option (list ascii) :=
  match cells with
  | [] => None
  | None :: _ => None
  | Some c :: rest =>
      if Ascii.eqb c NUL then Some []
      else match cstring rest with
           | Some cs => Some (c :: cs)
           | None => None
           end
  end.

(** ** printf conversions *)

Definition hex_digits_upper : list ascii := chars "0123456789ABCDEF".

Definition hex_digit (d : Z) : ascii := nth (Z.to_nat d) hex_digits_upper NUL.

(** The digits of [u] in base 16, most significant first; [n] bounds their
    number. *)
Fixpoint hex_acc (n : nat) (u : Z) (acc : list ascii) : list ascii :=
  match n with
  | O => acc
  | S n' =>
      let acc' := hex_digit (u mod 16) :: acc in
      if u / 16 =? 0 then acc' else hex_acc n' (u / 16) acc'
  end.

Definition zero_pad (width : nat) (cs : list ascii) : list ascii :=
  repeat (ascii_of_nat 48) (width - length cs) ++ cs.

(** ["%02X"] applied to an [int] argument: the argument is read as an
    [unsigned int] (eight hexadecimal digits at most), printed in upper case,
    zero-padded to two characters. *)
Definition fmt_02X (v : Z) : string := text (zero_pad 2 (hex_acc 8 (uint v) [])).

(** ["%d"] applied to an [int]. *)
Definition fmt_d (v : Z) : string := pretty v.

(** ** Calls of the code into the system, recorded in the trace *)

Section Calls.
Context {K : Type} `{OS K}.

Definition lift_sys {A} (call : K -> A * K) (ev : A -> option event) : M (world K) A :=
  fun w =>
    let '(r, k') := call (kernel w) in
    Ok r (World k' (match ev r with
                    | Some e => trace w ++ [e]
                    | None => trace w
                    end)).

Definition malloc (size : Z) : M (world K) (option block) :=
  ok <- lift_sys (sys_malloc size) (fun _ => None) ;;
  ret (if ok : bool then Some (repeat None (Z.to_nat size)) else None).

Definition getaddrinfo (service : string) (hints : addrinfo_hints)
  : M (world K) (Z * list addrinfo) :=
  lift_sys (sys_getaddrinfo service hints) (fun _ => None).

Definition socket (domain type protocol : Z) : M (world K) Z :=
  lift_sys (sys_socket domain type protocol)
           (fun r => Some (EvSocket domain type protocol r)).

Definition setsockopt (fd level optname optval : Z) : M (world K) Z :=
  lift_sys (sys_setsockopt fd level optname optval)
           (fun r => Some (EvSetsockopt fd level optname optval r)).

Definition bind (fd : Z) (addr : list byte) : M (world K) Z :=
  lift_sys (sys_bind fd addr) (fun r => Some (EvBind fd addr r)).

Definition fcntl (fd cmd flags : Z) : M (world K) Z :=
  lift_sys (sys_fcntl fd cmd flags) (fun r => Some (EvFcntl fd cmd flags r)).

Definition getifaddrs : M (world K) (Z * list ifaddrs) :=
  lift_sys sys_getifaddrs (fun _ => None).

Definition strerror_errno : M (world K) string :=
  fun w => Ok (sys_strerror_errno (kernel w)) w.

(** [debug(level, format, ...)]: the line goes to the logging sink. *)
Definition debug (level : Z) (m : message) : M (world K) unit :=
  fun w => Ok tt (emit (EvDebug level m) w).

(** A step that may leave its object. *)
Definition checked {A} (o : option A) : M (world K) A :=
  match o with
  | Some a => ret a
  | None => fault
  end.
End Calls.

(** ** FrameDumper: [debug_print_buffer] *)

Module FrameDumper.
Section Dump.
Context {K : Type} `{OS K}.
Variable plat : platform.

(** The value of the expression [buf[i]]: a plain [char], promoted to
    [int]. *)
Definition char_to_int (b : byte) : Z :=
  let v := Z.of_N (Byte.to_N b) in
  if char_signed plat && (128 <=? v) then v - 256 else v.

(** The body of the [for] loop at counter [obfc], write position [obfp]. *)
Definition format_byte (buf : list byte) (buf_len obfc : Z)
           (obf : block) (obfp : nat) : M (world K) (block * nat) :=
  c <- checked (buf !! Z.to_nat obfc) ;;
  obf <- checked (snprintf_at obf obfp 3 (fmt_02X (char_to_int c))) ;;
  let obfp := (obfp + 2)%nat in
  if negb (obfc =? size_t plat (buf_len - 1)) then
    if obfc mod 32 =? 31 then
      obf <- checked (snprintf_at obf obfp 5 " || ") ;;
      ret (obf, (obfp + 4)%nat)
    else if obfc mod 16 =? 15 then
      obf <- checked (snprintf_at obf obfp 4 " | ") ;;
      ret (obf, (obfp + 3)%nat)
    else if obfc mod 4 =? 3 then
      obf <- checked (snprintf_at obf obfp 2 " ") ;;
      ret (obf, (obfp + 1)%nat)
    else ret (obf, obfp)
  else ret (obf, obfp).

(** [for (obfc = ...; obfc < buf_len; obfc++)], [obfc] an [unsigned int]. *)
Fixpoint format_loop (fuel : nat) (buf : list byte) (buf_len obfc : Z)
         (obf : block) (obfp : nat) : M (world K) (block * nat) :=
  match fuel with
  | O => fun _ => Timeout
  | S fuel' =>
      if obfc <? buf_len then
        st <- format_byte buf buf_len obfc obf obfp ;;
        format_loop fuel' buf buf_len (uint (obfc + 1)) (fst st) (snd st)
      else ret (obf, obfp)
  end.

(** The tag of the [switch (buf[0])]: the format of the line, and whether
    the line goes out at the caller's level. *)
Definition tag_format (tag sep : string) : string :=
  tag +:+ sep +:+ dquote +:+ "%s" +:+ dquote +:+ ".".

Definition classify (level first : Z) : Z * string :=
  if first =? 16 then (level, tag_format "SYNC" ": ")
  else if first =? 24 then (level, tag_format "FLUP" ": ")
  else if first =? 25 then (level, tag_format "DRSP" ": ")
  else if first =? 27 then (level, tag_format "ANNC" ": ")
  else if first =? 28 then (level, tag_format "SGNL" ": ")
  else (1, tag_format "XXXX" "  ").

Definition debug_print_buffer (fuel : nat) (level : Z) (buf : list byte) (buf_len : Z)
  : M (world K) unit :=
  obf <- malloc (size_t plat (buf_len * 4 + 1)) ;;
  match obf with
  | Some obf =>
      st <- format_loop fuel buf buf_len 0 obf 0%nat ;;
      obf <- checked (store (fst st) (snd st) NUL) ;;
      first <- checked (buf !! 0%nat) ;;
      line <- checked (cstring obf) ;;
      let '(lvl, f) := classify level (char_to_int first) in
      debug lvl {| fmt := f; args := [AStr (text line)] |}
  | None => ret tt
  end.
End Dump.
End FrameDumper.

(** ** ClockIdentity: [get_self_clock_id] *)

Module ClockIdentity.
Section Identity.
Context {K : Type} `{OS K}.

(** [char local_clock_id[8]]: a cell holds nothing until it is written. *)
Definition id_cells := list (option byte).

(** The locals the scan of the interfaces updates. *)
Record scan_state := {
  len : Z;
  local_clock_id : id_cells;
  found : Z
}.

(** [memcpy(local_clock_id, &s->sll_addr, len)]: a [Fault] (here [None])
    when [len] bytes do not fit one of the two arrays. *)
Definition memcpy (dst : id_cells) (src : list byte) (n : Z) : option id_cells :=
  if (0 <=? n) && (n <=? Z.of_nat (length dst)) && (n <=? Z.of_nat (length src))
  then Some (map Some (take (Z.to_nat n) src) ++ drop (Z.to_nat n) dst)
  else None.

(** The body of [for (ifa = ifaddr; ifa != NULL; ifa = ifa->ifa_next)]. The
    cast to [struct sockaddr_ll *] reads [sll_halen] and [sll_addr]; on an
    address that is not laid out so, the reads leave the object. *)
Definition scan_step (ifa : ifaddrs) (st : scan_state) : M (world K) scan_state :=
  match ifa_addr ifa with
  | Some sa =>
      if sa_family_of sa =? AF_PACKET then
        if negb (String.eqb (ifa_name ifa) "lo") && (found st =? 0) then
          match sa with
          | Sockaddr_ll sll_halen sll_addr =>
              id <- checked (memcpy (local_clock_id st) sll_addr sll_halen) ;;
              ret {| len := sll_halen; local_clock_id := id; found := 1 |}
          | Sockaddr_other _ => fault
          end
        else ret st
      else ret st
  | None => ret st
  end.

Fixpoint scan (ifs : list ifaddrs) (st : scan_state) : M (world K) scan_state :=
  match ifs with
  | [] => ret st
  | ifa :: rest => st' <- scan_step ifa st ;; scan rest st'
  end.

(** [a[dst] = a[src]] and [a[dst] = v] on the eight cells. *)
Definition copy_cell (dst src : nat) (a : id_cells) : id_cells :=
  match a !! src with
  | Some v => <[dst := v]> a
  | None => a
  end.

Definition set_cell (dst : nat) (v : byte) (a : id_cells) : id_cells :=
  <[dst := Some v]> a.

(** The five assignments under [if (len == 6)], in the order of the code. *)
Definition doctor (a : id_cells) : id_cells :=
  set_cell 4 xfe (set_cell 3 xff (copy_cell 5 3 (copy_cell 6 4 (copy_cell 7 5 a)))).

Definition getifaddrs_failure (status : Z) : message :=
  {| fmt := "getifaddrs: %s"; args := [AStr (gai_strerror status)] |}.

(** The result is the object representation of the returned [uint64_t]:
    the eight cells of [local_clock_id], copied by the last [memcpy]. *)
Definition get_self_clock_id : M (world K) id_cells :=
  r <- getifaddrs ;;
  let status := if fst r =? -1 then 1 else 0 in
  st <- (if negb (status =? 0) then die (getifaddrs_failure status)
         else scan (snd r) {| len := 0; local_clock_id := repeat None 8; found := 0 |}) ;;
  let id := if len st =? 6 then doctor (local_clock_id st) else local_clock_id st in
  ret (take 8 id).
End Identity.

(** The interface the spec selects: the first one that has a link-layer
    address and is not the loopback interface. *)
Definition eligible (ifa : ifaddrs) : bool :=
  match ifa_addr ifa with
  | Some sa => (sa_family_of sa =? AF_PACKET) && negb (String.eqb (ifa_name ifa) "lo")
  | None => false
  end.

Definition selected (ifs : list ifaddrs) : option ifaddrs := List.find eligible ifs.
End ClockIdentity.

(** ** SocketOpener: [open_sockets_at_port] *)

Module SocketOpener.

(** Modelled from the spec: the header that declares [socket_info] and
    [sockets_open_bundle] is not among the sources. A record is a descriptor
    and a 16-bit port; a bundle is a bounded array of records and the count of
    those in use. The field names are the ones the code uses; the capacity is
    the length of [sockets]. *)
Record socket_info := { number : Z; port : Z }.

Record sockets_open_bundle := {
  sockets_open : nat;
  sockets : list socket_info
}.

Section Open.
Context {K : Type} `{OS K}.

Definition family_name (family : Z) : string :=
  if family =? AF_INET6 then "IPv6" else "IPv4".

Definition so_timestamping_flags : Z :=
  Z.lor (Z.lor (Z.lor (Z.lor (Z.lor SOF_TIMESTAMPING_TX_HARDWARE
                                    SOF_TIMESTAMPING_TX_SOFTWARE)
                             SOF_TIMESTAMPING_RX_HARDWARE)
                      SOF_TIMESTAMPING_RX_SOFTWARE)
               SOF_TIMESTAMPING_SOFTWARE)
        SOF_TIMESTAMPING_RAW_HARDWARE.

Definition resolver_failure (code : Z) : message :=
  {| fmt := "getifaddrs: %s"; args := [AStr (gai_strerror code)] |}.

Definition listen_failure (family port : Z) (err : string) : message :=
  {| fmt := "unable to listen on %s port %d. The error is: " +:+ dquote +:+ "%s" +:+ dquote
            +:+ ". Daemon must run as root. Or is a separate PTP daemon running?";
     args := [AStr (family_name family); AInt port; AStr err] |}.

Definition listening (family port : Z) : message :=
  {| fmt := "listening on %s port %d."; args := [AStr (family_name family); AInt port] |}.

(** [sockets[sockets_open].number = fd], and the same for [.port]: a
    [Fault] (here [None]) when the count is not an index of the array. *)
Definition set_number (fd : Z) (b : sockets_open_bundle) : option sockets_open_bundle :=
  match sockets b !! sockets_open b with
  | Some r => Some {| sockets_open := sockets_open b;
                      sockets := <[sockets_open b := {| number := fd; port := port r |}]>
                                   (sockets b) |}
  | None => None
  end.

Definition set_port (p : Z) (b : sockets_open_bundle) : option sockets_open_bundle :=
  match sockets b !! sockets_open b with
  | Some r => Some {| sockets_open := sockets_open b;
                      sockets := <[sockets_open b := {| number := number r; port := p |}]>
                                   (sockets b) |}
  | None => None
  end.

Definition incr_open (b : sockets_open_bundle) : sockets_open_bundle :=
  {| sockets_open := S (sockets_open b); sockets := sockets b |}.

(** The block under [if (fd != -1)]: what the code does with a socket it
    created. [ret0] is the value of [ret] on entry, 0. *)
Definition setup_socket (port_ : Z) (p : addrinfo) (fd : Z) (b : sockets_open_bundle)
  : M (world K) sockets_open_bundle :=
  let ret0 := 0 in
  let yes := 1 in
  ret1 <- (if ai_family p =? AF_INET6 then
             r <- setsockopt fd IPPROTO_IPV6 IPV6_V6ONLY yes ;;
             ret (Z.lor ret0 r)
           else ret ret0) ;;
  ret2 <- (if ret1 =? 0 then bind fd (ai_addr p) else ret ret1) ;;
  ret3 <- (if ret2 =? 0 then setsockopt fd SOL_SOCKET SO_TIMESTAMPING so_timestamping_flags
           else ret ret2) ;;
  flags <- fcntl fd F_GETFL 0 ;;
  fcntl fd F_SETFL (Z.lor flags O_NONBLOCK) ;;
  if negb (ret3 =? 0) then
    err <- strerror_errno ;;
    die (listen_failure (ai_family p) port_ err)
  else
    debug 2 (listening (ai_family p) port_) ;;
    b <- checked (set_number fd b) ;;
    b <- checked (set_port port_ b) ;;
    ret (incr_open b).

(** The body of [for (p = info; p; p = p->ai_next)]. *)
Definition open_one (port_ : Z) (p : addrinfo) (b : sockets_open_bundle)
  : M (world K) sockets_open_bundle :=
  fd <- socket (ai_family p) (ai_socktype p) IPPROTO_UDP ;;
  if negb (fd =? -1) then setup_socket port_ p fd b else ret b.

Fixpoint open_each (port_ : Z) (info : list addrinfo) (b : sockets_open_bundle)
  : M (world K) sockets_open_bundle :=
  match info with
  | [] => ret b
  | p :: rest => b' <- open_one port_ p b ;; open_each port_ rest b'
  end.

Definition hints : addrinfo_hints :=
  {| hint_family := AF_UNSPEC; hint_socktype := SOCK_DGRAM; hint_flags := AI_PASSIVE |}.

(** [snprintf(portstr, 20, "%d", port)]. *)
Definition portstr (port_ : Z) : string := text (take 19 (chars (fmt_d port_))).

Definition open_sockets_at_port (port_ : Z) (b : sockets_open_bundle)
  : M (world K) sockets_open_bundle :=
  r <- getaddrinfo (portstr port_) hints ;;
  (if negb (fst r =? 0) then die (resolver_failure (fst r)) else ret tt) ;;
  open_each port_ (snd r) b.
End Open.

(** *** Reading a run of [open_sockets_at_port] from its trace *)

(** The descriptors [socket] returned, failures left out. *)
Definition created (t : list event) : list Z :=
  omap (fun e => match e with
                 | EvSocket _ _ _ fd => if fd =? -1 then None else Some fd
                 | _ => None
                 end) t.

(** A call on a created socket that the code checks and that failed: a
    [setsockopt] or a [bind] that did not return 0. *)
Definition failed_setup (e : event) : bool :=
  match e with
  | EvSetsockopt _ _ _ _ r => negb (r =? 0)
  | EvBind _ _ r => negb (r =? 0)
  | _ => false
  end.

Definition is_bind (e : event) : bool :=
  match e with EvBind _ _ _ => true | _ => false end.

Definition is_ipv6_option (e : event) : bool :=
  match e with EvSetsockopt _ level _ _ _ => level =? IPPROTO_IPV6 | _ => false end.

(** The code asked for non-blocking mode on [fd]: an [F_SETFL] whose flags
    have [O_NONBLOCK] set. *)
Definition requests_nonblock (fd : Z) (e : event) : bool :=
  match e with
  | EvFcntl fd' cmd flags _ =>
      (fd' =? fd) && (cmd =? F_SETFL) && (Z.land flags O_NONBLOCK =? O_NONBLOCK)
  | _ => false
  end.

(** The value of [IPV6_V6ONLY] on [fd] after the trace [t]: the last one a
    successful [setsockopt] set, if any. With a value other than 0 the socket
    takes IPv6 packets only: IPv4 traffic on the IPv6 socket is suppressed. *)
Definition v6only_setting (fd : Z) (t : list event) : option Z :=
  last (omap (fun e => match e with
                       | EvSetsockopt fd' level optname optval r =>
                           if (fd' =? fd) && (level =? IPPROTO_IPV6)
                              && (optname =? IPV6_V6ONLY) && (r =? 0)
                           then Some optval else None
                       | _ => None
                       end) t).

Definition v4_on_v6_suppressed (fd : Z) (t : list event) : Prop :=
  exists v, v6only_setting fd t = Some v /\ v <> 0.

(** The suppression explicitly switched off: [IPV6_V6ONLY] set to 0, so that
    the IPv6 socket also takes IPv4 traffic. *)
Definition v4_on_v6_suppression_disabled (fd : Z) (t : list event) : Prop :=
  v6only_setting fd t = Some 0.

(** The address families the resolver returns for a port. *)
Definition resolved {K} `{OS K} (port_ : Z) (w : world K) : list addrinfo :=
  snd (fst (sys_getaddrinfo (portstr port_) hints (kernel w))).

(** The record the code appends for a descriptor. *)
Definition record_for (port_ fd : Z) : socket_info := {| number := fd; port := port_ |}.

(** The number of families whose socket could not be created. *)
Definition refused (t : list event) : nat :=
  length (omap (fun e => match e with
                         | EvSocket _ _ _ fd => if fd =? -1 then Some e else None
                         | _ => None
                         end) t).

(** The events of a family that ends with a record appended: the descriptor
    [fd], the flags [fl] that [F_GETFL] answered and the result [rs] of
    [F_SETFL]. *)
Definition listening_events (port_ : Z) (p : addrinfo) (fd fl rs : Z) : list event :=
  EvSocket (ai_family p) (ai_socktype p) IPPROTO_UDP fd
  :: (if ai_family p =? AF_INET6 then [EvSetsockopt fd IPPROTO_IPV6 IPV6_V6ONLY 1 0] else [])
  ++ [EvBind fd (ai_addr p) 0;
      EvSetsockopt fd SOL_SOCKET SO_TIMESTAMPING so_timestamping_flags 0;
      EvFcntl fd F_GETFL 0 fl;
      EvFcntl fd F_SETFL (Z.lor fl O_NONBLOCK) rs;
      EvDebug 2 (listening (ai_family p) port_)].
End SocketOpener.

(** ** A scripted operating system, to run the embedding

    The kernel state is the list of answers still to give: each call takes
    the next one ([-1] for an integer call once the script is over). *)

Module Script.
Record script := {
  malloc_answers : list bool;
  int_answers : list Z;
  resolver_answer : Z * list addrinfo;
  ifaddrs_answer : Z * list ifaddrs;
  errno_text : string
}.

Definition next_int (s : script) : Z * script :=
  match int_answers s with
  | [] => (-1, s)
  | r :: rest =>
      (r, {| malloc_answers := malloc_answers s; int_answers := rest;
             resolver_answer := resolver_answer s;
             ifaddrs_answer := ifaddrs_answer s; errno_text := errno_text s |})
  end.

Definition next_malloc (s : script) : bool * script :=
  match malloc_answers s with
  | [] => (false, s)
  | r :: rest =>
      (r, {| malloc_answers := rest; int_answers := int_answers s;
             resolver_answer := resolver_answer s;
             ifaddrs_answer := ifaddrs_answer s; errno_text := errno_text s |})
  end.

#[global] Instance scripted : OS script := {|
  sys_malloc := fun _ => next_malloc;
  sys_getaddrinfo := fun _ _ s => (resolver_answer s, s);
  sys_socket := fun _ _ _ => next_int;
  sys_setsockopt := fun _ _ _ _ => next_int;
  sys_bind := fun _ _ => next_int;
  sys_fcntl := fun _ _ _ => next_int;
  sys_getifaddrs := fun s => (ifaddrs_answer s, s);
  sys_strerror_errno := errno_text;
  gai_strerror := fun code => "gai error " +:+ pretty code
|}.

(** A script that only answers [malloc]. *)
Definition heap (answers : list bool) : world script :=
  World {| malloc_answers := answers; int_answers := [];
           resolver_answer := (0, []); ifaddrs_answer := (0, []);
           errno_text := EmptyString |} [].
End Script.

(** ** The rendering, in the words of the spec

    Each byte as two uppercase hexadecimal digits; between bytes nothing
    inside a group of four, [" "] after every 4th byte, [" | "] after every
    16th, [" || "] after every 32nd, and nothing after the last byte. *)

Definition byte_value (b : byte) : Z := Z.of_N (Byte.to_N b).

Definition hex2 (b : byte) : list ascii :=
  [hex_digit (byte_value b / 16); hex_digit (byte_value b mod 16)].

(** The separator that follows the [k]-th byte of [n]. *)
Definition separator (k n : Z) : list ascii :=
  if k =? n then []
  else if k mod 32 =? 0 then chars " || "
  else if k mod 16 =? 0 then chars " | "
  else if k mod 4 =? 0 then chars " "
  else [].

(** The bytes [bs] that follow the first [k] bytes of a buffer of [n] bytes,
    each printed by [pr]. *)
Fixpoint render_from (pr : byte -> list ascii) (k n : Z) (bs : list byte) : list ascii :=
  match bs with
  | [] => []
  | b :: bs' => pr b ++ separator (k + 1) n ++ render_from pr (k + 1) n bs'
  end.

Definition render_with (pr : byte -> list ascii) (bs : list byte) : list ascii :=
  render_from pr 0 (Z.of_nat (length bs)) bs.

Definition render (bs : list byte) : string := text (render_with hex2 bs).

(** What the code leaves in the output for one byte: the first two
    characters of its ["%02X"] conversion. *)
Definition printed (plat : platform) (b : byte) : list ascii :=
  take 2 (chars (fmt_02X (FrameDumper.char_to_int plat b))).

(** The line the spec asks for: the tag the first byte selects, at the
    caller's level, or [XXXX] at level 1 for any other first byte. *)
Definition tag_of (first : byte) : option string :=
  match byte_value first with
  | 16 => Some "SYNC"%string
  | 24 => Some "FLUP"%string
  | 25 => Some "DRSP"%string
  | 27 => Some "ANNC"%string
  | 28 => Some "SGNL"%string
  | _ => None
  end.

Definition tagged_line (level : Z) (first : byte) (line : string) : event :=
  match tag_of first with
  | Some tag =>
      EvDebug level {| fmt := tag +:+ ": " +:+ dquote +:+ "%s" +:+ dquote +:+ ".";
                       args := [AStr line] |}
  | None =>
      EvDebug 1 {| fmt := "XXXX  " +:+ dquote +:+ "%s" +:+ dquote +:+ ".";
                   args := [AStr line] |}
  end.

(** The lengths [debug_print_buffer] is written for: the bytes are there,
    the [unsigned int] counter reaches the length, and the size of the
    allocation does not wrap in [size_t]. *)
Definition dumpable (plat : platform) (buf : list byte) (buf_len : Z) : Prop :=
  0 <= buf_len <= UINT_MAX /\
  4 * buf_len + 1 <= SIZE_MAX plat /\
  buf_len <= Z.of_nat (length buf).

(** ** Sample inputs *)

Module Samples.
Import Script.

(** A 20-byte announce frame and a frame with an unknown first byte. *)
Definition announce : list byte := x1b :: x02 :: repeat x00 18.
Definition unknown : list byte := [x99; x7f; x80; xff].

Definition v4 : addrinfo :=
  {| ai_family := AF_INET; ai_socktype := SOCK_DGRAM; ai_addr := [x02; x00; x01; x3f] |}.
Definition v6 : addrinfo :=
  {| ai_family := AF_INET6; ai_socktype := SOCK_DGRAM; ai_addr := [x0a; x00; x01; x3f] |}.

(** A system that resolves IPv4 and IPv6 and answers the integer calls
    with [answers]. *)
Definition net (answers : list Z) : world script :=
  World {| malloc_answers := []; int_answers := answers;
           resolver_answer := (0, [v4; v6]); ifaddrs_answer := (0, []);
           errno_text := "Operation not permitted" |} [].

(** Both families open: descriptors 3 and 4. *)
Definition both_open : list Z := [3; 0; 0; 2; 0; 4; 0; 0; 0; 2; 0].

(** IPv4 opens on descriptor 5; the socket for IPv6 cannot be created. *)
Definition v6_refused : list Z := [5; 0; 0; 2; 0; -1].

(** IPv4 opens on descriptor 3; the bind of the IPv6 socket fails. *)
Definition v6_bind_fails : list Z := [3; 0; 0; 2; 0; 4; 0; -1; 0; 2; 0].

Definition slot : SocketOpener.socket_info :=
  {| SocketOpener.number := 0; SocketOpener.port := 0 |}.

Definition empty_bundle : SocketOpener.sockets_open_bundle :=
  {| SocketOpener.sockets_open := 0; SocketOpener.sockets := repeat slot 8 |}.

(** The bundle after port 319 was opened on both families. *)
Definition bundle_319 : SocketOpener.sockets_open_bundle :=
  {| SocketOpener.sockets_open := 2;
     SocketOpener.sockets :=
       SocketOpener.record_for 319 3 :: SocketOpener.record_for 319 4 :: repeat slot 6 |}.

(** The bundle after port 320 was opened on IPv4 only. *)
Definition bundle_320 : SocketOpener.sockets_open_bundle :=
  {| SocketOpener.sockets_open := 3;
     SocketOpener.sockets :=
       SocketOpener.record_for 319 3 :: SocketOpener.record_for 319 4
       :: SocketOpener.record_for 320 5 :: repeat slot 5 |}.

Definition eth0 : ifaddrs :=
  {| ifa_name := "eth0";
     ifa_addr := Some (Sockaddr_ll 6 [xaa; xbb; xcc; xdd; xee; xff; x00; x00]) |}.
Definition ib0 : ifaddrs :=
  {| ifa_name := "ib0";
     ifa_addr := Some (Sockaddr_ll 8 [x00; x11; x22; x33; x44; x55; x66; x77]) |}.
Definition lo : ifaddrs :=
  {| ifa_name := "lo";
     ifa_addr := Some (Sockaddr_ll 6 [x00; x00; x00; x00; x00; x00; x00; x00]) |}.
Definition lo_inet : ifaddrs :=
  {| ifa_name := "lo"; ifa_addr := Some (Sockaddr_other AF_INET) |}.

(** A system whose interface enumeration answers [(rc, ifs)]. *)
Definition host (rc : Z) (ifs : list ifaddrs) : world script :=
  World {| malloc_answers := []; int_answers := [];
           resolver_answer := (0, []); ifaddrs_answer := (rc, ifs);
           errno_text := EmptyString |} [].
End Samples.

(** ** Further readings of a dump and of a trace *)

(** The characters a dump is made of: the sixteen uppercase digits, the
    space and the bar. *)
Definition dump_char (c : ascii) : bool :=
  existsb (Ascii.eqb c) (hex_digits_upper ++ chars " |").

(** The number of characters of the dump of [n] bytes: two a byte, and
    between bytes one after every 4th, three after every 16th, four after
    every 32nd. *)
Definition render_length (n : Z) : Z :=
  if n =? 0 then 0
  else 2 * n + (n - 1) / 4 + 2 * ((n - 1) / 16) + (n - 1) / 32.

(** Reading a dump back: the digits, two by two, are the bytes. *)
Fixpoint index_of (c : ascii) (l : list ascii) (i : Z) : option Z :=
  match l with
  | [] => None
  | x :: l' => if Ascii.eqb c x then Some i else index_of c l' (i + 1)
  end.

Definition hex_value (c : ascii) : option Z := index_of c hex_digits_upper 0.

Definition byte_of_Z (z : Z) : byte :=
  match Byte.of_N (Z.to_N z) with
  | Some b => b
  | None => x00
  end.

Fixpoint pair_up (ds : list Z) : list byte :=
  match ds with
  | h :: l :: rest => byte_of_Z (16 * h + l) :: pair_up rest
  | _ => []
  end.

Definition undump (cs : list ascii) : list byte := pair_up (omap hex_value cs).

(** The texts a trace handed to [debug] as the argument of a one-argument
    format. *)
Definition logged_texts (t : list event) : list string :=
  omap (fun e => match e with
                 | EvDebug _ {| fmt := _; args := [AStr s] |} => Some s
                 | _ => None
                 end) t.

(** The [socket] calls of a trace: domain, type and protocol, in order. *)
Definition socket_calls (t : list event) : list (Z * Z * Z) :=
  omap (fun e => match e with
                 | EvSocket domain type protocol _ => Some (domain, type, protocol)
                 | _ => None
                 end) t.

(** What the code asks of [socket] for an entry of the resolver's list. *)
Definition socket_request (p : addrinfo) : Z * Z * Z :=
  (ai_family p, ai_socktype p, IPPROTO_UDP).

(** The cells and the locals the scan of the interfaces starts from. *)
Definition fresh_scan : ClockIdentity.scan_state :=
  {| ClockIdentity.len := 0; ClockIdentity.local_clock_id := repeat None 8;
     ClockIdentity.found := 0 |}.

(** A created socket that the trace shows bound and with timestamping on. *)
Definition bound_and_stamped (fd : Z) (t : list event) : Prop :=
  (exists addr, EvBind fd addr 0 ∈ t) /\
  EvSetsockopt fd SOL_SOCKET SO_TIMESTAMPING SocketOpener.so_timestamping_flags 0 ∈ t.

(** Two bytes that a platform with signed plain [char] prints alike. *)
Definition alike_when_signed (a b : byte) : Prop :=
  a = b \/ (128 <= byte_value a /\ 128 <= byte_value b).

(** A run of the code leaves the trace alone unless it logs. *)
Definition untouched {K A} (w : world K) (r : result (world K) A) : Prop :=
  match r with
  | Ok _ w' | Fault w' => w' = w
  | Exit _ _ => False
  | Timeout => True
  end.


(** A stretch of trace that is nothing, or one line handed to [debug] with
    one text as its argument. *)
Definition at_most_one_line (t : list event) : Prop :=
  t = [] \/ exists lvl f s, t = [EvDebug lvl {| fmt := f; args := [AStr s] |}].

(** More sample inputs. *)
Module MoreSamples.
Import Script.

(** A bundle whose two slots are both in use. *)
Definition full_bundle : SocketOpener.sockets_open_bundle :=
  {| SocketOpener.sockets_open := 2;
     SocketOpener.sockets := [SocketOpener.record_for 319 3; SocketOpener.record_for 319 4] |}.

(** A resolver that fails with code -2. *)
Definition no_resolver : world script :=
  World {| malloc_answers := []; int_answers := [];
           resolver_answer := (-2, []); ifaddrs_answer := (0, []);
           errno_text := EmptyString |} [].

(** An interface with a 20-byte hardware address, of which [sll_addr] holds
    the first 8, and one with a 4-byte address. *)
Definition ib_long : ifaddrs :=
  {| ifa_name := "ib1";
     ifa_addr := Some (Sockaddr_ll 20 [x80; x00; x00; x48; xfe; x80; x00; x00]) |}.
Definition short4 : ifaddrs :=
  {| ifa_name := "tun0";
     ifa_addr := Some (Sockaddr_ll 4 [x0a; x00; x00; x01; x00; x00; x00; x00]) |}.

(** A heap that grants one allocation, and the kernel state after it. *)
Definition heap1 : world script := heap [true].
Definition heap1_used : script := snd (next_malloc (kernel heap1)).

(** [Samples.unknown] with its two last bytes exchanged. *)
Definition unknown_swapped : list byte := [x99; x7f; xff; x80].

(** Port 320 opened after port 319, the IPv6 socket refused, and the state
    the call ends in. *)
Definition open_320 : result (world script) SocketOpener.sockets_open_bundle :=
  SocketOpener.open_sockets_at_port 320 Samples.bundle_319 (Samples.net Samples.v6_refused).
Definition after_320 : world script := state_after open_320 (Samples.net Samples.v6_refused).

(** Both ports opened in turn from an empty bundle, and the state the two
    calls end in. *)
Definition both_ports : M (world script) SocketOpener.sockets_open_bundle :=
  (b1 <- SocketOpener.open_sockets_at_port 319 Samples.empty_bundle ;;
   SocketOpener.open_sockets_at_port 320 b1).
Definition two_ports : world script := Samples.net (Samples.both_open ++ Samples.v6_refused).
Definition after_both : world script := state_after (both_ports two_ports) two_ports.

(** Every socket refused, on a full bundle. *)
Definition all_refused : world script := Samples.net [-1; -1].
Definition after_refusals : world script :=
  state_after (SocketOpener.open_sockets_at_port 319 full_bundle all_refused) all_refused.
End MoreSamples.

(** ** Lemmas on memory *)

Lemma store_chars_app (cs pre : list ascii) (tail : block) :
  (length cs <= length tail)%nat ->
  store_chars (map Some pre ++ tail) (length pre) cs
  = Some (map Some (pre ++ cs) ++ drop (length cs) tail).
Proof.
  revert pre tail. induction cs as [|c cs IH]; intros pre tail Hlen; simpl.
  - by rewrite app_nil_r, drop_0.
  - destruct tail as [|t tail]; simpl in Hlen; [lia|].
    unfold store.
    rewrite length_app, length_map.
    destruct (Nat.ltb_spec (length pre) (length pre + length (t :: tail))) as [_|Hge];
      [|simpl in Hge; lia].
    replace (<[length pre:=Some c]> (map Some pre ++ t :: tail))
      with (map Some (pre ++ [c]) ++ tail).
    + replace (S (length pre)) with (length (pre ++ [c])) by (rewrite length_app; simpl; lia).
      rewrite IH by lia.
      by rewrite <- app_assoc.
    + rewrite map_app, <- app_assoc. simpl.
      rewrite insert_app_r_alt by (rewrite length_map; lia).
      rewrite length_map, Nat.sub_diag. reflexivity.
Qed.

Lemma store_app (c : ascii) (pre : list ascii) (tail : block) :
  (1 <= length tail)%nat ->
  store (map Some pre ++ tail) (length pre) c
  = Some (map Some pre ++ Some c :: drop 1 tail).
Proof.
  intros Hlen.
  pose proof (store_chars_app [c] pre tail Hlen) as Hs.
  simpl in Hs.
  destruct (store (map Some pre ++ tail) (length pre) c) as [blk|]; [|discriminate].
  rewrite Hs. by rewrite map_app, <- app_assoc.
Qed.

Lemma cstring_app (cs : list ascii) (tail : block) :
  Forall (fun c => c <> NUL) cs ->
  cstring (map Some cs ++ Some NUL :: tail) = Some cs.
Proof.
  induction 1 as [|c cs Hc _ IH]; simpl.
  - reflexivity.
  - destruct (Ascii.eqb_spec c NUL) as [->|_]; [done|].
    by rewrite IH.
Qed.

Lemma snprintf_at_app (size : Z) (s : string) (pre : list ascii) (tail : block) :
  0 < size ->
  let cs := take (Z.to_nat (size - 1)) (chars s) in
  (length cs + 1 <= length tail)%nat ->
  snprintf_at (map Some pre ++ tail) (length pre) size s
  = Some (map Some (pre ++ cs) ++ Some NUL :: drop (length cs + 1) tail).
Proof.
  intros Hsize cs Hroom. unfold snprintf_at.
  destruct (Z.eqb_spec size 0) as [->|_]; [lia|].
  fold cs. rewrite store_chars_app by (rewrite length_app; simpl; lia).
  rewrite length_app. simpl.
  rewrite (app_assoc pre cs [NUL]), map_app, <- app_assoc. reflexivity.
Qed.

(** ** Lemmas on the conversion of one byte *)

Lemma printed_length plat b : length (printed plat b) = 2%nat.
Proof.
  unfold printed, FrameDumper.char_to_int.
  destruct (char_signed plat); destruct b; vm_compute; reflexivity.
Qed.

Lemma printed_no_nul plat b : Forall (fun c => c <> NUL) (printed plat b).
Proof.
  unfold printed, FrameDumper.char_to_int.
  destruct (char_signed plat); destruct b; vm_compute;
    repeat (constructor; [discriminate|]); constructor.
Qed.

(** Where plain [char] is unsigned the two characters are the two digits of
    the byte. *)
Lemma printed_unsigned plat b : char_signed plat = false -> printed plat b = hex2 b.
Proof.
  intros Hu. unfold printed, FrameDumper.char_to_int. rewrite Hu.
  destruct b; vm_compute; reflexivity.
Qed.

(** So they are for a byte below 0x80, signed or not. *)
Lemma printed_low plat b : byte_value b < 128 -> printed plat b = hex2 b.
Proof.
  intros Hlow. unfold printed, FrameDumper.char_to_int.
  destruct (char_signed plat); destruct b;
    solve [vm_compute; reflexivity | vm_compute in Hlow; discriminate].
Qed.

(** Where plain [char] is signed a byte from 0x80 on is sign-extended by the
    promotion to [int]; its conversion has eight digits, and the two that fit
    are the leading [FF]. *)
Lemma printed_high plat b :
  char_signed plat = true -> 128 <= byte_value b -> printed plat b = chars "FF".
Proof.
  intros Hs Hhigh. unfold printed, FrameDumper.char_to_int. rewrite Hs.
  destruct b;
    solve [vm_compute; reflexivity | exfalso; apply Hhigh; vm_compute; reflexivity].
Qed.

Lemma printed_signed plat b :
  char_signed plat = true ->
  printed plat b = if 128 <=? byte_value b then chars "FF" else hex2 b.
Proof.
  intros Hs. destruct (Z.leb_spec 128 (byte_value b)).
  - by apply printed_high.
  - by apply printed_low.
Qed.

Lemma separator_no_nul k n : Forall (fun c => c <> NUL) (separator k n).
Proof.
  unfold separator.
  repeat match goal with |- context [if ?c then _ else _] => destruct c end;
    vm_compute; repeat (constructor; [discriminate|]); constructor.
Qed.

Lemma render_from_no_nul plat k n bs :
  Forall (fun c => c <> NUL) (render_from (printed plat) k n bs).
Proof.
  revert k. induction bs as [|b bs IH]; intros k; simpl.
  - constructor.
  - rewrite !Forall_app. auto using printed_no_nul, separator_no_nul.
Qed.

(** ** The formatting loop writes the rendering *)

Section DumpProofs.
Context {K : Type} `{OS K}.
Variable plat : platform.

Lemma size_t_small z : 0 <= z <= SIZE_MAX plat -> size_t plat z = z.
Proof. unfold size_t, SIZE_MAX. intros Hz. apply Z.mod_small. lia. Qed.

Lemma uint_small z : 0 <= z <= UINT_MAX -> uint z = z.
Proof. unfold uint, UINT_MAX. intros Hz. apply Z.mod_small. lia. Qed.

(** The tests of the code on the counter [i] are the separator that
    follows byte [i + 1] of [n]. *)
Lemma separator_cases i n :
  0 <= i ->
  separator (i + 1) n =
    if i =? n - 1 then []
    else if i mod 32 =? 31 then chars " || "
    else if i mod 16 =? 15 then chars " | "
    else if i mod 4 =? 3 then chars " "
    else [].
Proof.
  intros Hi. unfold separator.
  repeat match goal with
         | |- context [Z.eqb ?a ?b] => destruct (Z.eqb_spec a b)
         end; try reflexivity; exfalso;
    Z.div_mod_to_equations; lia.
Qed.

(** One turn of the loop appends the conversion of byte [i] and its
    separator, and stays inside the object when there is room for them and
    for a NUL. *)
Lemma hex_write (b : byte) (pre : list ascii) (tail : block) :
  (3 <= length tail)%nat ->
  snprintf_at (map Some pre ++ tail) (length pre) 3
              (fmt_02X (FrameDumper.char_to_int plat b))
  = Some (map Some (pre ++ printed plat b) ++ Some NUL :: drop 3 tail).
Proof.
  intros Hroom.
  pose proof (snprintf_at_app 3 (fmt_02X (FrameDumper.char_to_int plat b)) pre tail) as Hhex.
  cbv zeta in Hhex.
  change (take (Z.to_nat (3 - 1)) _) with (printed plat b) in Hhex.
  rewrite printed_length in Hhex. apply Hhex; lia.
Qed.

Lemma format_byte_spec buf n i b (pre : list ascii) (tail : block) (w : world K) :
  0 <= i < n -> n <= SIZE_MAX plat ->
  buf !! Z.to_nat i = Some b ->
  let out := printed plat b ++ separator (i + 1) n in
  (length out + 1 <= length tail)%nat ->
  exists tail',
    length tail' = (length tail - length out)%nat /\
    FrameDumper.format_byte plat buf n i (map Some pre ++ tail) (length pre) w
    = Ok (map Some (pre ++ out) ++ tail', length (pre ++ out)) w.
Proof.
  intros Hi Hn Hb out Hroom. subst out.
  rewrite length_app, printed_length in Hroom.
  unfold FrameDumper.format_byte, bindM, checked. rewrite Hb.
  unfold ret at 1.
  rewrite hex_write by lia. unfold ret at 1.
  rewrite size_t_small by lia.
  rewrite separator_cases in * by lia.
  replace (length pre + 2)%nat with (length (pre ++ printed plat b))
    by (rewrite length_app, printed_length; lia).
  set (pre2 := pre ++ printed plat b).
  set (tail2 := Some NUL :: drop 3 tail).
  assert (Htail2 : length tail2 = (length tail - 2)%nat)
    by (unfold tail2; simpl; rewrite length_drop; lia).
  assert (Hpre2 : length pre2 = (length pre + 2)%nat)
    by (unfold pre2; rewrite length_app, printed_length; lia).
  assert (Hsep : forall size s, 0 < size ->
            take (Z.to_nat (size - 1)) (chars s) = chars s ->
            (length (chars s) + 3 <= length tail)%nat ->
            snprintf_at (map Some pre2 ++ tail2) (length pre2) size s
            = Some (map Some (pre2 ++ chars s)
                      ++ Some NUL :: drop (length (chars s) + 1) tail2)).
  { intros size s Hsize Htake Hfit.
    rewrite snprintf_at_app by (rewrite ?Htake; lia).
    by rewrite Htake. }
  destruct (Z.eqb_spec i (n - 1)) as [Hlast|Hmore]; cbn [negb].
  { exists tail2. rewrite app_nil_r, printed_length. fold pre2. simpl in Hroom.
    split; [lia | reflexivity]. }
  destruct (Z.eqb_spec (i mod 32) 31) as [_|_].
  { change (length (chars " || ")) with 4%nat in Hroom.
    rewrite (Hsep 5 " || "%string) by (reflexivity || (change (length (chars " || ")) with 4%nat; lia)).
    eexists. rewrite (app_assoc pre). fold pre2. unfold ret.
    split; [| rewrite (length_app pre2); reflexivity].
    rewrite length_app, printed_length. cbn [length].
    rewrite length_drop, Htail2.
    change (length (chars " || ")) with 4%nat. lia. }
  destruct (Z.eqb_spec (i mod 16) 15) as [_|_].
  { change (length (chars " | ")) with 3%nat in Hroom.
    rewrite (Hsep 4 " | "%string) by (reflexivity || (change (length (chars " | ")) with 3%nat; lia)).
    eexists. rewrite (app_assoc pre). fold pre2. unfold ret.
    split; [| rewrite (length_app pre2); reflexivity].
    rewrite length_app, printed_length. cbn [length].
    rewrite length_drop, Htail2.
    change (length (chars " | ")) with 3%nat. lia. }
  destruct (Z.eqb_spec (i mod 4) 3) as [_|_].
  { change (length (chars " ")) with 1%nat in Hroom.
    rewrite (Hsep 2 " "%string) by (reflexivity || (change (length (chars " ")) with 1%nat; lia)).
    eexists. rewrite (app_assoc pre). fold pre2. unfold ret.
    split; [| rewrite (length_app pre2); reflexivity].
    rewrite length_app, printed_length. cbn [length].
    rewrite length_drop, Htail2.
    change (length (chars " ")) with 1%nat. lia. }
  exists tail2. rewrite app_nil_r, printed_length. fold pre2. simpl in Hroom.
  split; [lia | reflexivity].
Qed.

Lemma format_loop_spec buf n :
  0 <= n <= UINT_MAX -> n <= SIZE_MAX plat -> n <= Z.of_nat (length buf) ->
  forall fuel i (pre : list ascii) (tail : block) (w : world K),
    0 <= i <= n -> (Z.to_nat (n - i) < fuel)%nat ->
    let R := render_from (printed plat) i n
                         (drop (Z.to_nat i) (take (Z.to_nat n) buf)) in
    (length R + 1 <= length tail)%nat ->
    exists tail',
      length tail' = (length tail - length R)%nat /\
      FrameDumper.format_loop plat fuel buf n i (map Some pre ++ tail) (length pre) w
      = Ok (map Some (pre ++ R) ++ tail', length (pre ++ R)) w.
Proof.
  intros Hn Hsize Hbuf.
  induction fuel as [|fuel IH]; intros i pre tail w Hi Hfuel R Hroom; [lia|].
  cbn [FrameDumper.format_loop].
  destruct (Z.ltb_spec i n) as [Hlt|Hge].
  - assert (Hlook : exists b, take (Z.to_nat n) buf !! Z.to_nat i = Some b).
    { apply lookup_lt_is_Some. rewrite length_take. lia. }
    destruct Hlook as [b Hb].
    assert (Hb' : buf !! Z.to_nat i = Some b).
    { rewrite lookup_take_lt in Hb by lia. exact Hb. }
    assert (HR : R = printed plat b ++ separator (i + 1) n
                       ++ render_from (printed plat) (i + 1) n
                            (drop (Z.to_nat (i + 1)) (take (Z.to_nat n) buf))).
    { subst R. rewrite (drop_S _ b _ Hb).
      replace (Z.to_nat (i + 1)) with (S (Z.to_nat i)) by lia. reflexivity. }
    set (R' := render_from (printed plat) (i + 1) n
                 (drop (Z.to_nat (i + 1)) (take (Z.to_nat n) buf))) in *.
    clearbody R. subst R. rewrite !length_app in Hroom.
    destruct (format_byte_spec buf n i b pre tail w) as (tail1 & Hlen1 & Hstep);
      [lia | lia | exact Hb' | rewrite length_app; lia |].
    unfold bindM at 1. rewrite Hstep. cbn [fst snd].
    rewrite uint_small by lia.
    rewrite length_app in Hlen1.
    destruct (IH (i + 1) (pre ++ printed plat b ++ separator (i + 1) n) tail1 w)
      as (tail2 & Hlen2 & Hloop); [lia | lia | fold R'; lia |].
    fold R' in Hloop, Hlen2.
    exists tail2. split; [rewrite !length_app; lia|].
    rewrite Hloop. rewrite <- !app_assoc. reflexivity.
  - assert (i = n) by lia. subst i.
    assert (HR : R = []).
    { subst R. rewrite drop_ge by (rewrite length_take; lia). reflexivity. }
    clearbody R. subst R.
    exists tail. rewrite app_nil_r. simpl. split; [lia | reflexivity].
Qed.

(** A separator only follows a byte that closes a group of four. *)
Lemma separator_bound k n :
  0 <= k ->
  Z.of_nat (length (separator (k + 1) n)) <= 4 * ((k + 1) / 4 - k / 4).
Proof.
  intros Hk. unfold separator.
  repeat match goal with
         | |- context [Z.eqb ?a ?b] => destruct (Z.eqb_spec a b)
         end;
    cbn [length chars list_ascii_of_string]; Z.div_mod_to_equations; lia.
Qed.

Lemma render_from_length (pr : byte -> list ascii) k n bs :
  (forall b, length (pr b) = 2%nat) -> 0 <= k ->
  Z.of_nat (length (render_from pr k n bs))
  <= 2 * Z.of_nat (length bs) + 4 * ((k + Z.of_nat (length bs)) / 4 - k / 4).
Proof.
  intros Hpr. revert k. induction bs as [|b bs IH]; intros k Hk.
  - simpl. rewrite Z.add_0_r. lia.
  - cbn [render_from]. rewrite !length_app, Hpr.
    specialize (IH (k + 1) ltac:(lia)).
    pose proof (separator_bound k n Hk).
    cbn [length].
    replace (k + Z.of_nat (S (length bs))) with (k + 1 + Z.of_nat (length bs)) by lia.
    lia.
Qed.

(** Two digits a byte and the separators take at most [3 * n] characters. *)
Lemma render_with_length (pr : byte -> list ascii) bs :
  (forall b, length (pr b) = 2%nat) ->
  Z.of_nat (length (render_with pr bs)) <= 3 * Z.of_nat (length bs).
Proof.
  intros Hpr. unfold render_with.
  pose proof (render_from_length pr 0 (Z.of_nat (length bs)) bs Hpr ltac:(lia)) as Hlen.
  revert Hlen. generalize (length (render_from pr 0 (Z.of_nat (length bs)) bs)).
  intros m Hlen. Z.div_mod_to_equations. lia.
Qed.

(** What [debug_print_buffer] does when the allocation succeeds, for a
    length that neither the counter nor the size of the allocation wraps
    on: one line, the rendering of the first [n] bytes, tagged by the first
    byte. *)
Lemma debug_print_buffer_spec fuel level buf n first k' (w : world K) :
  0 <= n <= UINT_MAX -> 4 * n + 1 <= SIZE_MAX plat ->
  n <= Z.of_nat (length buf) ->
  (Z.to_nat n < fuel)%nat ->
  buf !! 0%nat = Some first ->
  sys_malloc (4 * n + 1) (kernel w) = (true, k') ->
  FrameDumper.debug_print_buffer plat fuel level buf n w
  = Ok tt (World k' (trace w ++
      [EvDebug (fst (FrameDumper.classify level (FrameDumper.char_to_int plat first)))
         {| fmt := snd (FrameDumper.classify level (FrameDumper.char_to_int plat first));
            args := [AStr (text (render_with (printed plat) (take (Z.to_nat n) buf)))] |}])).
Proof.
  intros Hn Hsize Hbuf Hfuel Hfirst Hmalloc.
  unfold FrameDumper.debug_print_buffer.
  rewrite size_t_small by lia.
  replace (n * 4 + 1) with (4 * n + 1) by lia.
  unfold bindM at 1. unfold malloc, bindM, lift_sys. rewrite Hmalloc. unfold ret at 1.
  set (w1 := World k' (trace w)).
  set (bs := take (Z.to_nat n) buf).
  assert (Hbs : length bs = Z.to_nat n) by (unfold bs; rewrite length_take; lia).
  pose proof (render_with_length (printed plat) bs (printed_length plat)) as Hlen.
  destruct (format_loop_spec buf n ltac:(lia) ltac:(lia) Hbuf fuel 0 []
              (repeat None (Z.to_nat (4 * n + 1))) w1) as (tail & Htail & Hloop).
  { lia. }
  { rewrite Z.sub_0_r. exact Hfuel. }
  { rewrite repeat_length. change (Z.to_nat 0) with 0%nat. rewrite drop_0. fold bs.
    unfold render_with in Hlen. rewrite Hbs, Z2Nat.id in Hlen by lia. lia. }
  change (Z.to_nat 0) with 0%nat in *. rewrite drop_0 in *. fold bs in Hloop, Htail.
  assert (HR : render_from (printed plat) 0 n bs = render_with (printed plat) bs).
  { unfold render_with. rewrite Hbs, Z2Nat.id by lia. reflexivity. }
  rewrite HR in *. clear HR.
  cbn [map app length] in Hloop. rewrite Hloop. cbn [fst snd].
  rewrite repeat_length in Htail.
  unfold checked at 1.
  rewrite store_app by lia.
  unfold ret at 1. rewrite Hfirst. unfold checked at 1, ret at 1.
  rewrite cstring_app by (apply render_from_no_nul).
  unfold checked, ret.
  destruct (FrameDumper.classify level (FrameDumper.char_to_int plat first)) as [lvl f].
  reflexivity.
Qed.
End DumpProofs.

(** ** FrameDumper: the claims *)

Section DumpClaims.
Context {K : Type} `{OS K}.
Variable plat : platform.

(** The [switch] of the code picks the line of the spec, whether plain
    [char] is signed or not. *)
Lemma classify_tagged level first line :
  EvDebug (fst (FrameDumper.classify level (FrameDumper.char_to_int plat first)))
          {| fmt := snd (FrameDumper.classify level (FrameDumper.char_to_int plat first));
             args := [AStr line] |}
  = tagged_line level first line.
Proof.
  unfold FrameDumper.char_to_int, tagged_line, tag_of.
  destruct (char_signed plat); destruct first; reflexivity.
Qed.

(** A run whose allocation succeeds, on a length the code is written for,
    logs one line: the tagged rendering of the buffer. *)
Lemma dump_logs_line fuel level buf n first k' (w : world K) :
  dumpable plat buf n ->
  (Z.to_nat n < fuel)%nat ->
  buf !! 0%nat = Some first ->
  sys_malloc (4 * n + 1) (kernel w) = (true, k') ->
  FrameDumper.debug_print_buffer plat fuel level buf n w
  = Ok tt (World k' (trace w ++
      [tagged_line level first
         (text (render_with (printed plat) (take (Z.to_nat n) buf)))])).
Proof.
  intros (Hn & Hsize & Hbuf) Hfuel Hfirst Hmalloc.
  rewrite <- classify_tagged.
  by apply debug_print_buffer_spec.
Qed.

Lemma render_with_ext (pr1 pr2 : byte -> list ascii) bs :
  Forall (fun b => pr1 b = pr2 b) bs -> render_with pr1 bs = render_with pr2 bs.
Proof.
  unfold render_with. generalize (Z.of_nat (length bs)) 0.
  intros n k Hall. revert k.
  induction Hall as [|b bs Hb _ IH]; intros k; simpl; [reflexivity|].
  by rewrite Hb, IH.
Qed.

(** Where plain [char] is unsigned, the text of the line is the rendering
    of the spec. *)
Lemma dump_renders_unsigned fuel level buf n first k' (w : world K) :
  char_signed plat = false ->
  dumpable plat buf n ->
  (Z.to_nat n < fuel)%nat ->
  buf !! 0%nat = Some first ->
  sys_malloc (4 * n + 1) (kernel w) = (true, k') ->
  FrameDumper.debug_print_buffer plat fuel level buf n w
  = Ok tt (World k' (trace w ++
      [tagged_line level first (render (take (Z.to_nat n) buf))])).
Proof.
  intros Hu Hd Hfuel Hfirst Hmalloc.
  rewrite (dump_logs_line fuel level buf n first k' w) by assumption.
  unfold render.
  rewrite (render_with_ext (printed plat) hex2); [reflexivity|].
  apply Forall_forall. intros b _. by apply printed_unsigned.
Qed.

(** So it is on every platform for a buffer of bytes below 0x80. *)
Lemma dump_renders_low_bytes fuel level buf n first k' (w : world K) :
  Forall (fun b => byte_value b < 128) (take (Z.to_nat n) buf) ->
  dumpable plat buf n ->
  (Z.to_nat n < fuel)%nat ->
  buf !! 0%nat = Some first ->
  sys_malloc (4 * n + 1) (kernel w) = (true, k') ->
  FrameDumper.debug_print_buffer plat fuel level buf n w
  = Ok tt (World k' (trace w ++
      [tagged_line level first (render (take (Z.to_nat n) buf))])).
Proof.
  intros Hlow Hd Hfuel Hfirst Hmalloc.
  rewrite (dump_logs_line fuel level buf n first k' w) by assumption.
  unfold render.
  rewrite (render_with_ext (printed plat) hex2); [reflexivity|].
  eapply Forall_impl; [exact Hlow|]. intros b Hb. by apply printed_low.
Qed.
(** Where plain [char] is signed, the text of the line has [FF] in place of
    the digits of every byte from 0x80 on. *)
Lemma dump_renders_signed fuel level buf n first k' (w : world K) :
  char_signed plat = true ->
  dumpable plat buf n ->
  (Z.to_nat n < fuel)%nat ->
  buf !! 0%nat = Some first ->
  sys_malloc (4 * n + 1) (kernel w) = (true, k') ->
  FrameDumper.debug_print_buffer plat fuel level buf n w
  = Ok tt (World k' (trace w ++
      [tagged_line level first
         (text (render_with (fun b => if 128 <=? byte_value b then chars "FF" else hex2 b)
                            (take (Z.to_nat n) buf)))])).
Proof.
  intros Hs Hd Hfuel Hfirst Hmalloc.
  rewrite (dump_logs_line fuel level buf n first k' w) by assumption.
  rewrite (render_with_ext (printed plat)
             (fun b => if 128 <=? byte_value b then chars "FF" else hex2 b));
    [reflexivity|].
  apply Forall_forall. intros b _. by apply printed_signed.
Qed.
End DumpClaims.

(** ** Runs that cannot end the process *)

Lemma bindM_no_exit {S A B} (c : M S A) (f : A -> M S B) (s : S) :
  no_exit (c s) -> (forall a s', no_exit (f a s')) -> no_exit (bindM c f s).
Proof.
  unfold bindM. intros Hc Hf. destruct (c s); simpl in *; auto.
Qed.

Lemma checked_no_exit {K A} (o : option A) (w : world K) : no_exit (checked o w).
Proof. destruct o; exact I. Qed.

Lemma lift_sys_no_exit {K A} (call : K -> A * K) ev (w : world K) :
  no_exit (lift_sys call ev w).
Proof. unfold lift_sys. destruct (call (kernel w)). exact I. Qed.

Section DumpTotal.
Context {K : Type} `{OS K}.
Variable plat : platform.

Lemma format_byte_no_exit buf n i obf obfp (w : world K) :
  no_exit (FrameDumper.format_byte plat buf n i obf obfp w).
Proof.
  unfold FrameDumper.format_byte.
  apply bindM_no_exit; [apply checked_no_exit|]. intros c w1.
  apply bindM_no_exit; [apply checked_no_exit|]. intros obf1 w2.
  repeat match goal with
         | |- context [if ?c then _ else _] => destruct c
         end;
    try exact I;
    (apply bindM_no_exit; [apply checked_no_exit | intros; exact I]).
Qed.

Lemma format_loop_no_exit fuel buf n i obf obfp (w : world K) :
  no_exit (FrameDumper.format_loop plat fuel buf n i obf obfp w).
Proof.
  revert i obf obfp w. induction fuel as [|fuel IH]; intros i obf obfp w; simpl.
  - exact I.
  - destruct (i <? n); [|exact I].
    apply bindM_no_exit; [apply format_byte_no_exit|]. intros st w1. apply IH.
Qed.

Lemma debug_print_buffer_no_exit fuel level buf n (w : world K) :
  no_exit (FrameDumper.debug_print_buffer plat fuel level buf n w).
Proof.
  unfold FrameDumper.debug_print_buffer.
  apply bindM_no_exit.
  { unfold malloc. apply bindM_no_exit; [apply lift_sys_no_exit | intros; exact I]. }
  intros [obf|] w1; [|exact I].
  apply bindM_no_exit; [apply format_loop_no_exit|]. intros st w2.
  apply bindM_no_exit; [apply checked_no_exit|]. intros obf1 w3.
  apply bindM_no_exit; [apply checked_no_exit|]. intros first w4.
  apply bindM_no_exit; [apply checked_no_exit|]. intros line w5.
  destruct (FrameDumper.classify level (FrameDumper.char_to_int plat first)). exact I.
Qed.

(** When the allocation fails the code returns at once. *)
Lemma debug_print_buffer_no_memory fuel level buf n k' (w : world K) :
  sys_malloc (size_t plat (n * 4 + 1)) (kernel w) = (false, k') ->
  FrameDumper.debug_print_buffer plat fuel level buf n w = Ok tt (World k' (trace w)).
Proof.
  intros Hmalloc. unfold FrameDumper.debug_print_buffer, malloc, bindM, lift_sys.
  rewrite Hmalloc. reflexivity.
Qed.
End DumpTotal.

Section DumpTheorems.
Context {K : Type} `{OS K}.
Variable plat : platform.

(** C6. For every buffer whose first byte is [first], on a length the code
    is written for and with the allocation succeeding, [debug_print_buffer]
    logs exactly one line, the formatted text, and the first byte selects
    its tag: 0x10 SYNC, 0x18 FLUP, 0x19 DRSP, 0x1B ANNC, 0x1C SGNL, logged at
    the caller's level; any other first byte gives XXXX at level 1, whatever
    the level passed in. The formats are written out, [q] being the double
    quote: the tag, a colon and a space (two spaces after XXXX), and the
    text between quotes with a full stop. *)
Theorem dump_tag_from_first_byte fuel level buf n first k' (w : world K) :
  dumpable plat buf n ->
  (Z.to_nat n < fuel)%nat ->
  buf !! 0%nat = Some first ->
  sys_malloc (4 * n + 1) (kernel w) = (true, k') ->
  let line := text (render_with (printed plat) (take (Z.to_nat n) buf)) in
  let q := String (ascii_of_nat 34) EmptyString in
  let selected :=
    match byte_value first with
    | 0x10 => (level, "SYNC: " +:+ q +:+ "%s" +:+ q +:+ ".")
    | 0x18 => (level, "FLUP: " +:+ q +:+ "%s" +:+ q +:+ ".")
    | 0x19 => (level, "DRSP: " +:+ q +:+ "%s" +:+ q +:+ ".")
    | 0x1B => (level, "ANNC: " +:+ q +:+ "%s" +:+ q +:+ ".")
    | 0x1C => (level, "SGNL: " +:+ q +:+ "%s" +:+ q +:+ ".")
    | _ => (1, "XXXX  " +:+ q +:+ "%s" +:+ q +:+ ".")
    end in
  FrameDumper.debug_print_buffer plat fuel level buf n w
  = Ok tt (World k' (trace w ++
             [EvDebug (fst selected) {| fmt := snd selected; args := [AStr line] |}])).
Proof.
  intros Hd Hfuel Hfirst Hmalloc line q selected.
  rewrite (debug_print_buffer_spec plat fuel level buf n first k' w);
    [|apply Hd|apply Hd|apply Hd|assumption..].
  fold line. subst selected q.
  unfold FrameDumper.char_to_int.
  destruct (char_signed plat); destruct first; reflexivity.
Qed.

(** C7. If the allocation of the output buffer fails, [debug_print_buffer]
    logs nothing and returns; no run of it, whatever the input, ends the
    process; and on a length the code is written for, with a first byte to
    read, it returns whether the allocation succeeded or not. *)
Theorem dump_never_fails_caller fuel level buf n (w : world K) :
  let run := FrameDumper.debug_print_buffer plat fuel level buf n w in
  let alloc := sys_malloc (size_t plat (n * 4 + 1)) (kernel w) in
  (fst alloc = false -> run = Ok tt (World (snd alloc) (trace w))) /\
  no_exit run /\
  (dumpable plat buf n -> (Z.to_nat n < fuel)%nat -> buf <> [] ->
   exists w', run = Ok tt w').
Proof.
  intros run alloc. subst run. split; [|split].
  - intros Hfail. apply debug_print_buffer_no_memory.
    subst alloc. destruct (sys_malloc _ _) as [ok k']. simpl in *. by subst ok.
  - apply debug_print_buffer_no_exit.
  - intros Hd Hfuel Hbuf.
    destruct buf as [|first rest] eqn:Ebuf; [done|]. rewrite <- Ebuf in *.
    assert (Hsize : size_t plat (n * 4 + 1) = 4 * n + 1).
    { destruct Hd as (Hn & Hsize & _). rewrite size_t_small by lia. lia. }
    clear alloc.
    destruct (sys_malloc (4 * n + 1) (kernel w)) as [[|] k'] eqn:Hmalloc.
    + eexists. apply (dump_logs_line plat fuel level buf n first k' w); try assumption.
      by rewrite Ebuf.
    + eexists. apply debug_print_buffer_no_memory. rewrite Hsize. exact Hmalloc.
Qed.

(** C10. For a buffer of [n] bytes, on a length the code is written for,
    the formatting loop run on the [4 * n + 1] cells that [malloc] was
    asked for ends with every store inside them (a store outside is a
    [Fault]); the characters written, two digits a byte and the
    separators, are followed by the NUL that ends the text, and together
    they are at most [4 * n + 1]. *)
Theorem dump_writes_stay_inside fuel buf n (w : world K) :
  dumpable plat buf n ->
  (Z.to_nat n < fuel)%nat ->
  let size := size_t plat (n * 4 + 1) in
  let emitted := render_with (printed plat) (take (Z.to_nat n) buf) in
  size = 4 * n + 1 /\
  Z.of_nat (length emitted) + 1 <= 4 * n + 1 /\
  exists obf obf',
    FrameDumper.format_loop plat fuel buf n 0 (repeat None (Z.to_nat size)) 0%nat w
    = Ok (obf, length emitted) w /\
    store obf (length emitted) NUL = Some obf' /\
    length obf' = Z.to_nat size /\
    cstring obf' = Some emitted.
Proof.
  intros (Hn & Hsize & Hbuf) Hfuel size emitted.
  assert (Hsz : size = 4 * n + 1).
  { subst size. rewrite size_t_small by lia. lia. }
  set (bs := take (Z.to_nat n) buf) in *.
  assert (Hbs : length bs = Z.to_nat n) by (unfold bs; rewrite length_take; lia).
  pose proof (render_with_length (printed plat) bs (printed_length plat)) as Hlen.
  fold emitted in Hlen.
  split; [exact Hsz|]. split; [lia|].
  destruct (format_loop_spec plat buf n ltac:(lia) ltac:(lia) Hbuf fuel 0 []
              (repeat None (Z.to_nat size)) w) as (tail & Htail & Hloop).
  { lia. }
  { rewrite Z.sub_0_r. exact Hfuel. }
  { rewrite repeat_length. change (Z.to_nat 0) with 0%nat. rewrite drop_0. fold bs.
    replace (render_from (printed plat) 0 n bs) with emitted
      by (unfold emitted, render_with; rewrite Hbs, Z2Nat.id by lia; reflexivity).
    lia. }
  change (Z.to_nat 0) with 0%nat in *. rewrite drop_0 in *. fold bs in Hloop, Htail.
  replace (render_from (printed plat) 0 n bs) with emitted in *
    by (unfold emitted, render_with; rewrite Hbs, Z2Nat.id by lia; reflexivity).
  rewrite repeat_length in Htail.
  cbn [map app length] in Hloop.
  exists (map Some emitted ++ tail), (map Some emitted ++ Some NUL :: drop 1 tail).
  split; [exact Hloop|]. split; [apply store_app; lia|]. split.
  - rewrite length_app, length_map. cbn [length]. rewrite length_drop. lia.
  - apply cstring_app. apply render_from_no_nul.
Qed.
End DumpTheorems.

(** C2 (the code departs from the claim). On x86-64 Linux, where plain [char]
    is signed, the four bytes 99 7F 80 FF are logged as [FF7FFFFF]: each
    byte from 0x80 on is sign-extended by the promotion to [int] and only the
    leading [FF] of its eight digits fits the two characters; the rendering
    of the spec is [997F80FF]. *)
Theorem dump_high_bytes_signed_char :
  events_since (Script.heap [true])
    (FrameDumper.debug_print_buffer linux_x86_64 8 2 Samples.unknown 4 (Script.heap [true]))
  = [EvDebug 1 {| fmt := "XXXX  " +:+ dquote +:+ "%s" +:+ dquote +:+ ".";
                  args := [AStr "FF7FFFFF"] |}]
  /\ render Samples.unknown = "997F80FF"%string.
Proof. split; vm_compute; reflexivity. Qed.

(** An announce frame of 20 bytes at level 3, on x86-64. *)
Lemma dump_tag_from_first_byte_witness :
  FrameDumper.debug_print_buffer linux_x86_64 32 3 Samples.announce 20 (Script.heap [true])
  = Ok tt (World (snd (Script.next_malloc (kernel (Script.heap [true]))))
             [EvDebug 3 {| fmt := "ANNC: " +:+ String (ascii_of_nat 34) EmptyString +:+ "%s"
                                  +:+ String (ascii_of_nat 34) EmptyString +:+ ".";
                           args := [AStr (text (render_with (printed linux_x86_64)
                                                  (take 20 Samples.announce)))] |}]).
Proof.
  apply (dump_tag_from_first_byte linux_x86_64 32 3 Samples.announce 20 x1b
           (snd (Script.next_malloc (kernel (Script.heap [true])))) (Script.heap [true])).
  - unfold dumpable, UINT_MAX, SIZE_MAX. simpl. lia.
  - simpl. lia.
  - reflexivity.
  - reflexivity.
Defined.

(** Four bytes on 32-bit ARM, with the allocation failing and succeeding. *)
Lemma dump_never_fails_caller_witness :
  FrameDumper.debug_print_buffer linux_armhf 8 3 Samples.unknown 4 (Script.heap [false])
  = Ok tt (World (snd (Script.next_malloc (kernel (Script.heap [false])))) [])
  /\ exists w',
      FrameDumper.debug_print_buffer linux_armhf 8 3 Samples.unknown 4 (Script.heap [true])
      = Ok tt w'.
Proof.
  destruct (dump_never_fails_caller linux_armhf 8 3 Samples.unknown 4 (Script.heap [false]))
    as (Hfail & _ & _).
  destruct (dump_never_fails_caller linux_armhf 8 3 Samples.unknown 4 (Script.heap [true]))
    as (_ & _ & Hreturns).
  split.
  - apply Hfail. reflexivity.
  - apply Hreturns.
    + unfold dumpable, UINT_MAX, SIZE_MAX. simpl. lia.
    + simpl. lia.
    + discriminate.
Defined.

(** The announce frame of 20 bytes needs at most 81 cells. *)
Lemma dump_writes_stay_inside_witness :
  Z.of_nat (length (render_with (printed linux_x86_64) (take 20 Samples.announce))) + 1
  <= 4 * 20 + 1.
Proof.
  destruct (dump_writes_stay_inside linux_x86_64 32 Samples.announce 20 (Script.heap [true]))
    as (_ & Hbound & _).
  - unfold dumpable, UINT_MAX, SIZE_MAX. simpl. lia.
  - simpl. lia.
  - exact Hbound.
Defined.

(** ** ClockIdentity: the scan selects the first eligible interface *)

Section IdentityProofs.
Context {K : Type} `{OS K}.

(** Once an address was taken, the rest of the list changes nothing. *)
Lemma scan_found ifs st (w : world K) :
  ClockIdentity.found st = 1 -> ClockIdentity.scan ifs st w = Ok st w.
Proof.
  intros Hfound. induction ifs as [|ifa ifs IH]; simpl; [reflexivity|].
  unfold bindM, ClockIdentity.scan_step.
  rewrite Hfound. change (1 =? 0) with false. rewrite andb_false_r.
  destruct (ifa_addr ifa) as [sa|]; [destruct (sa_family_of sa =? AF_PACKET)|];
    unfold ret; exact IH.
Qed.

Lemma scan_skips ifa st (w : world K) :
  ClockIdentity.eligible ifa = false -> ClockIdentity.scan_step ifa st w = Ok st w.
Proof.
  unfold ClockIdentity.eligible, ClockIdentity.scan_step.
  destruct (ifa_addr ifa) as [sa|]; [|reflexivity].
  destruct (sa_family_of sa =? AF_PACKET); [|reflexivity].
  simpl. intros ->. reflexivity.
Qed.

Lemma scan_selected ifs st ifa halen addr id (w : world K) :
  ClockIdentity.found st = 0 ->
  ClockIdentity.selected ifs = Some ifa ->
  ifa_addr ifa = Some (Sockaddr_ll halen addr) ->
  ClockIdentity.memcpy (ClockIdentity.local_clock_id st) addr halen = Some id ->
  ClockIdentity.scan ifs st w
  = Ok {| ClockIdentity.len := halen; ClockIdentity.local_clock_id := id;
          ClockIdentity.found := 1 |} w.
Proof.
  intros Hfound Hsel Haddr Hcpy.
  induction ifs as [|ifa0 ifs IH]; [discriminate|].
  unfold ClockIdentity.selected in *. simpl in Hsel.
  cbn [ClockIdentity.scan]. unfold bindM at 1.
  destruct (ClockIdentity.eligible ifa0) eqn:Hel.
  - injection Hsel as ->.
    unfold ClockIdentity.eligible in Hel. rewrite Haddr in Hel.
    apply andb_prop in Hel as [Hfam Hname].
    unfold ClockIdentity.scan_step. rewrite Haddr, Hfam, Hname, Hfound.
    cbn [andb Z.eqb]. unfold bindM, checked. rewrite Hcpy. unfold ret at 1 2.
    by apply scan_found.
  - rewrite scan_skips by exact Hel. auto.
Qed.

Lemma scan_none ifs st (w : world K) :
  ClockIdentity.selected ifs = None -> ClockIdentity.scan ifs st w = Ok st w.
Proof.
  unfold ClockIdentity.selected.
  induction ifs as [|ifa0 ifs IH]; simpl; [reflexivity|].
  destruct (ClockIdentity.eligible ifa0) eqn:Hel; [discriminate|].
  intros Hsel. unfold bindM. rewrite scan_skips by exact Hel. auto.
Qed.

Lemma scan_no_exit ifs st (w : world K) : no_exit (ClockIdentity.scan ifs st w).
Proof.
  revert st w. induction ifs as [|ifa ifs IH]; intros st w; simpl; [exact I|].
  apply bindM_no_exit; [|intros; apply IH].
  unfold ClockIdentity.scan_step.
  repeat match goal with
         | |- context [match ?x with _ => _ end] => destruct x
         end; try exact I.
  apply bindM_no_exit; [apply checked_no_exit | intros; exact I].
Qed.

(** C1. When the enumeration succeeds and the selected interface (the first
    with a link-layer address that is not [lo]) has the 6-byte address
    [b0 b1 b2 b3 b4 b5], [get_self_clock_id] returns the 8 bytes
    [b0 b1 b2 FF FE b3 b4 b5]; when it has an 8-byte address, it returns
    these 8 bytes unchanged. The result is the object representation of the
    returned value, byte by byte. *)
Theorem clock_id_eui64 rc ifs k' ifa (w : world K) :
  sys_getifaddrs (kernel w) = ((rc, ifs), k') ->
  rc <> -1 ->
  ClockIdentity.selected ifs = Some ifa ->
  (forall b0 b1 b2 b3 b4 b5 pad,
      ifa_addr ifa = Some (Sockaddr_ll 6 ([b0; b1; b2; b3; b4; b5] ++ pad)) ->
      ClockIdentity.get_self_clock_id w
      = Ok (map Some [b0; b1; b2; xff; xfe; b3; b4; b5]) (World k' (trace w))) /\
  (forall addr,
      length addr = 8%nat ->
      ifa_addr ifa = Some (Sockaddr_ll 8 addr) ->
      ClockIdentity.get_self_clock_id w = Ok (map Some addr) (World k' (trace w))).
Proof.
  intros Hsys Hrc Hsel.
  assert (Hstatus : (rc =? -1) = false) by (apply Z.eqb_neq; exact Hrc).
  split.
  - intros b0 b1 b2 b3 b4 b5 pad Haddr.
    unfold ClockIdentity.get_self_clock_id, bindM at 1, getifaddrs, lift_sys.
    rewrite Hsys. cbn [fst snd]. rewrite Hstatus. cbn [Z.eqb negb].
    unfold bindM.
    rewrite (scan_selected ifs _ ifa 6 ([b0; b1; b2; b3; b4; b5] ++ pad)
               (map Some [b0; b1; b2; b3; b4; b5] ++ [None; None]));
      [reflexivity | reflexivity | exact Hsel | exact Haddr |].
    unfold ClockIdentity.memcpy. cbn [ClockIdentity.local_clock_id].
    assert (Hfits : (6 <=? Z.of_nat (length ([b0; b1; b2; b3; b4; b5] ++ pad))) = true)
      by (apply Z.leb_le; rewrite length_app; simpl length; lia).
    rewrite Hfits. reflexivity.
  - intros addr Hlen Haddr.
    do 9 (destruct addr as [|? addr]; try discriminate Hlen).
    unfold ClockIdentity.get_self_clock_id, bindM at 1, getifaddrs, lift_sys.
    rewrite Hsys. cbn [fst snd]. rewrite Hstatus. cbn [Z.eqb negb].
    unfold bindM.
    rewrite (scan_selected ifs _ ifa 8 [b; b0; b1; b2; b3; b4; b5; b6]
               (map Some [b; b0; b1; b2; b3; b4; b5; b6]));
      [reflexivity | reflexivity | exact Hsel | exact Haddr | reflexivity].
Qed.

(** C8. When the interface enumeration reports failure (it returns -1),
    [get_self_clock_id] ends the process with the message
    ["getifaddrs: %s"], whose argument is [gai_strerror] of the outcome of
    the comparison, 1; when it returns anything else the run does not end
    the process. *)
Theorem clock_id_enumeration_failure rc ifs k' (w : world K) :
  sys_getifaddrs (kernel w) = ((rc, ifs), k') ->
  (rc = -1 ->
   ClockIdentity.get_self_clock_id w
   = Exit {| fmt := "getifaddrs: %s"; args := [AStr (gai_strerror 1)] |}
          (World k' (trace w))) /\
  (rc <> -1 -> no_exit (ClockIdentity.get_self_clock_id w)).
Proof.
  intros Hsys. split.
  - intros ->.
    unfold ClockIdentity.get_self_clock_id, bindM, getifaddrs, lift_sys.
    rewrite Hsys. reflexivity.
  - intros Hrc.
    assert (Hstatus : (rc =? -1) = false) by (apply Z.eqb_neq; exact Hrc).
    unfold ClockIdentity.get_self_clock_id, bindM at 1, getifaddrs, lift_sys.
    rewrite Hsys. cbn [fst snd]. rewrite Hstatus. cbn [Z.eqb negb].
    apply bindM_no_exit; [apply scan_no_exit | intros; exact I].
Qed.
End IdentityProofs.

(** [eth0] with AA:BB:CC:DD:EE:FF behind the loopback entries, and an
    interface with an 8-byte address. *)
Lemma clock_id_eui64_witness :
  ClockIdentity.get_self_clock_id (Samples.host 0 [Samples.lo; Samples.lo_inet; Samples.eth0])
  = Ok (map Some [xaa; xbb; xcc; xff; xfe; xdd; xee; xff])
       (Samples.host 0 [Samples.lo; Samples.lo_inet; Samples.eth0])
  /\ ClockIdentity.get_self_clock_id (Samples.host 0 [Samples.lo; Samples.ib0; Samples.eth0])
     = Ok (map Some [x00; x11; x22; x33; x44; x55; x66; x77])
          (Samples.host 0 [Samples.lo; Samples.ib0; Samples.eth0]).
Proof.
  destruct (clock_id_eui64 0 [Samples.lo; Samples.lo_inet; Samples.eth0]
              (kernel (Samples.host 0 [Samples.lo; Samples.lo_inet; Samples.eth0]))
              Samples.eth0
              (Samples.host 0 [Samples.lo; Samples.lo_inet; Samples.eth0]))
    as (Hsix & _); [reflexivity | lia | reflexivity |].
  destruct (clock_id_eui64 0 [Samples.lo; Samples.ib0; Samples.eth0]
              (kernel (Samples.host 0 [Samples.lo; Samples.ib0; Samples.eth0]))
              Samples.ib0
              (Samples.host 0 [Samples.lo; Samples.ib0; Samples.eth0]))
    as (_ & Height); [reflexivity | lia | reflexivity |].
  split.
  - apply (Hsix xaa xbb xcc xdd xee xff [x00; x00]). reflexivity.
  - apply Height; reflexivity.
Defined.

(** An enumeration that fails, and one that finds [lo] and [eth0]. *)
Lemma clock_id_enumeration_failure_witness :
  ClockIdentity.get_self_clock_id (Samples.host (-1) [])
  = Exit {| fmt := "getifaddrs: %s"; args := [AStr (gai_strerror 1)] |} (Samples.host (-1) [])
  /\ no_exit (ClockIdentity.get_self_clock_id (Samples.host 0 [Samples.lo; Samples.eth0])).
Proof.
  destruct (clock_id_enumeration_failure (-1) [] (kernel (Samples.host (-1) []))
              (Samples.host (-1) [])) as (Hfail & _); [reflexivity|].
  destruct (clock_id_enumeration_failure 0 [Samples.lo; Samples.eth0]
              (kernel (Samples.host 0 [Samples.lo; Samples.eth0]))
              (Samples.host 0 [Samples.lo; Samples.eth0])) as (_ & Hgoes); [reflexivity|].
  split.
  - apply Hfail. reflexivity.
  - apply Hgoes. lia.
Defined.

(** ** SocketOpener: one address family *)

Lemma land_lor_same a b : Z.land (Z.lor a b) b = b.
Proof.
  apply Z.bits_inj'. intros n Hn.
  rewrite Z.land_spec, Z.lor_spec.
  destruct (Z.testbit a n), (Z.testbit b n); reflexivity.
Qed.

Lemma events_since_trace {K A} (w w' : world K) (r : result (world K) A) new :
  final_state r = Some w' -> trace w' = trace w ++ new -> events_since w r = new.
Proof.
  unfold events_since. intros -> ->. by rewrite drop_app_length.
Qed.

(** Symbolic execution of the monadic code: name the answer of every call
    and split every test, in the order the code meets them. *)
Ltac run_step :=
  match goal with
  | |- context [sys_socket ?a ?b ?c ?k] =>
      destruct (sys_socket a b c k) as [? ?] eqn:?
  | |- context [sys_setsockopt ?a ?b ?c ?d ?k] =>
      destruct (sys_setsockopt a b c d k) as [? ?] eqn:?
  | |- context [sys_bind ?a ?b ?k] =>
      destruct (sys_bind a b k) as [? ?] eqn:?
  | |- context [sys_fcntl ?a ?b ?c ?k] =>
      destruct (sys_fcntl a b c k) as [? ?] eqn:?
  | |- context [Z.eqb ?a ?b] => destruct (Z.eqb_spec a b)
  | |- context [SocketOpener.set_number ?fd ?b] =>
      destruct (SocketOpener.set_number fd b) eqn:?
  | |- context [SocketOpener.set_port ?p ?b] =>
      destruct (SocketOpener.set_port p b) eqn:?
  end;
  cbn [kernel trace fst snd negb];
  rewrite ?Z.lor_0_l in *.

Ltac run_calls :=
  unfold bindM, socket, setsockopt, bind, fcntl, strerror_errno,
    debug, checked, die, ret, fault, lift_sys, emit;
  cbn [kernel trace fst snd negb];
  repeat run_step.

Section OpenProofs.
Context {K : Type} `{OS K}.

(** The two stores and the increment append one record. *)
Lemma append_record fd port_ b b1 b2 :
  SocketOpener.set_number fd b = Some b1 ->
  SocketOpener.set_port port_ b1 = Some b2 ->
  (SocketOpener.sockets_open b < length (SocketOpener.sockets b))%nat /\
  SocketOpener.incr_open b2
  = {| SocketOpener.sockets_open := S (SocketOpener.sockets_open b);
       SocketOpener.sockets := <[SocketOpener.sockets_open b := SocketOpener.record_for port_ fd]>
                                 (SocketOpener.sockets b) |}.
Proof.
  unfold SocketOpener.set_number, SocketOpener.set_port.
  destruct (SocketOpener.sockets b !! SocketOpener.sockets_open b) as [r|] eqn:Hr;
    [|discriminate].
  intros [= <-]. cbn [SocketOpener.sockets SocketOpener.sockets_open].
  apply lookup_lt_Some in Hr as Hlt.
  rewrite list_lookup_insert_eq by exact Hlt.
  intros [= <-]. split; [exact Hlt|].
  unfold SocketOpener.incr_open. cbn [SocketOpener.sockets SocketOpener.sockets_open].
  by rewrite list_insert_insert_eq.
Qed.

Lemma append_record_full fd b :
  SocketOpener.set_number fd b = None ->
  (length (SocketOpener.sockets b) <= SocketOpener.sockets_open b)%nat.
Proof.
  unfold SocketOpener.set_number.
  destruct (SocketOpener.sockets b !! SocketOpener.sockets_open b) eqn:Hr; [discriminate|].
  intros _. by apply lookup_ge_None.
Qed.

Lemma set_port_after_number fd port_ b b1 :
  SocketOpener.set_number fd b = Some b1 -> SocketOpener.set_port port_ b1 <> None.
Proof.
  unfold SocketOpener.set_number, SocketOpener.set_port.
  destruct (SocketOpener.sockets b !! SocketOpener.sockets_open b) as [r|] eqn:Hr;
    [|discriminate].
  intros [= <-]. cbn [SocketOpener.sockets SocketOpener.sockets_open].
  apply lookup_lt_Some in Hr.
  by rewrite list_lookup_insert_eq.
Qed.

Lemma open_one_Ok port_ p b b' (w w' : world K) :
  SocketOpener.open_one port_ p b w = Ok b' w' ->
  (b' = b /\
   trace w' = trace w ++ [EvSocket (ai_family p) (ai_socktype p) IPPROTO_UDP (-1)]) \/
  (exists fd fl rs,
      fd <> -1 /\
      (SocketOpener.sockets_open b < length (SocketOpener.sockets b))%nat /\
      b' = {| SocketOpener.sockets_open := S (SocketOpener.sockets_open b);
              SocketOpener.sockets :=
                <[SocketOpener.sockets_open b := SocketOpener.record_for port_ fd]>
                  (SocketOpener.sockets b) |} /\
      trace w' = trace w ++ SocketOpener.listening_events port_ p fd fl rs).
Proof.
  unfold SocketOpener.open_one, SocketOpener.setup_socket, SocketOpener.listening_events.
  run_calls; intros Hok; try discriminate; injection Hok as Hb Hw;
    subst b' w'; try lia.
  all: try (left; split; [reflexivity | subst; reflexivity]).
  all: right;
    match goal with
    | Hn : SocketOpener.set_number ?fd ?b0 = Some ?b1,
      Hp : SocketOpener.set_port ?pt ?b1 = Some ?b2,
      Hg : sys_fcntl ?fd F_GETFL 0 _ = (?fl, _),
      Hs : sys_fcntl ?fd F_SETFL _ _ = (?rs, _) |- _ =>
        destruct (append_record fd pt b0 b1 b2 Hn Hp) as [Hlt ->];
        exists fd, fl, rs
    end;
    subst; cbn [trace]; rewrite <- ?app_assoc; auto.
Qed.

(** A family whose socket cannot be created leaves the bundle as it was and
    only the failed call in the trace. *)
Lemma open_one_refused port_ p b k1 (w : world K) :
  sys_socket (ai_family p) (ai_socktype p) IPPROTO_UDP (kernel w) = (-1, k1) ->
  SocketOpener.open_one port_ p b w
  = Ok b (World k1 (trace w ++ [EvSocket (ai_family p) (ai_socktype p) IPPROTO_UDP (-1)])).
Proof.
  intros Hsock. unfold SocketOpener.open_one, bindM, socket, lift_sys.
  rewrite Hsock. reflexivity.
Qed.

Lemma events_since_Ok {A} (w : world K) (a : A) k new :
  events_since w (Ok a (World k (trace w ++ new))) = new.
Proof. unfold events_since. simpl. by rewrite drop_app_length. Qed.

Lemma events_since_Exit {A} (w : world K) m k new :
  events_since w (Exit (A := A) m (World k (trace w ++ new))) = new.
Proof. unfold events_since. simpl. by rewrite drop_app_length. Qed.

Lemma events_since_Fault {A} (w : world K) k new :
  events_since w (Fault (A := A) (World k (trace w ++ new))) = new.
Proof. unfold events_since. simpl. by rewrite drop_app_length. Qed.

(** Rewrite the events of a finished symbolic run into a plain list. *)
Ltac read_events :=
  rewrite <- ?app_assoc;
  rewrite ?events_since_Ok, ?events_since_Exit, ?events_since_Fault;
  cbn [app].

(** A checked call that failed ends the process, with the message that names
    the family and the port. *)
Lemma open_one_failed port_ p b e (w : world K) :
  e ∈ events_since w (SocketOpener.open_one port_ p b w) ->
  SocketOpener.failed_setup e = true ->
  exists err w',
    SocketOpener.open_one port_ p b w
    = Exit (SocketOpener.listen_failure (ai_family p) port_ err) w'.
Proof.
  unfold SocketOpener.open_one, SocketOpener.setup_socket.
  run_calls; read_events; intros Hin Hfailed;
    try (eexists _, _; reflexivity);
    exfalso;
    repeat (apply elem_of_cons in Hin as [->|Hin];
            [simpl in Hfailed; try discriminate;
             try (apply negb_true_iff, Z.eqb_neq in Hfailed; congruence)|]);
    by apply elem_of_nil in Hin.
Qed.

(** Without a free slot the run is a [Fault]; with one it is not. *)
Lemma open_one_no_fault port_ p b (w w' : world K) :
  SocketOpener.open_one port_ p b w = Fault w' ->
  (length (SocketOpener.sockets b) <= SocketOpener.sockets_open b)%nat.
Proof.
  unfold SocketOpener.open_one, SocketOpener.setup_socket.
  run_calls; intros Hf; try discriminate.
  all: try match goal with
           | Hn : SocketOpener.set_number _ _ = None |- _ =>
               exact (append_record_full _ _ Hn)
           end.
  all: exfalso;
    match goal with
    | Hn : SocketOpener.set_number _ _ = Some _,
      Hp : SocketOpener.set_port _ _ = None |- _ =>
        exact (set_port_after_number _ _ _ _ Hn Hp)
    end.
Qed.

(** ** SocketOpener: the whole list of families *)

Lemma created_app t1 t2 :
  SocketOpener.created (t1 ++ t2) = SocketOpener.created t1 ++ SocketOpener.created t2.
Proof. unfold SocketOpener.created. apply omap_app. Qed.

Lemma refused_app t1 t2 :
  SocketOpener.refused (t1 ++ t2) = (SocketOpener.refused t1 + SocketOpener.refused t2)%nat.
Proof. unfold SocketOpener.refused. by rewrite omap_app, length_app. Qed.

Lemma created_listening port_ p fd fl rs :
  fd <> -1 ->
  SocketOpener.created (SocketOpener.listening_events port_ p fd fl rs) = [fd] /\
  SocketOpener.refused (SocketOpener.listening_events port_ p fd fl rs) = 0%nat.
Proof.
  intros Hfd. apply Z.eqb_neq in Hfd.
  unfold SocketOpener.listening_events, SocketOpener.created, SocketOpener.refused.
  destruct (ai_family p =? AF_INET6); simpl; rewrite Hfd; split; reflexivity.
Qed.

Lemma nonblock_listening port_ p fd fl rs :
  Exists (fun e => SocketOpener.requests_nonblock fd e = true)
         (SocketOpener.listening_events port_ p fd fl rs).
Proof.
  apply Exists_exists.
  exists (EvFcntl fd F_SETFL (Z.lor fl O_NONBLOCK) rs). split.
  - unfold SocketOpener.listening_events.
    destruct (ai_family p =? AF_INET6); apply list_elem_of_In; simpl; tauto.
  - unfold SocketOpener.requests_nonblock.
    by rewrite !Z.eqb_refl, land_lor_same, Z.eqb_refl.
Qed.

Lemma bindM_Ok_inv {S A B} (c : M S A) (f : A -> M S B) s b s' :
  bindM c f s = Ok b s' -> exists a s1, c s = Ok a s1 /\ f a s1 = Ok b s'.
Proof.
  unfold bindM. destruct (c s) as [a s1| | |]; try discriminate. eauto.
Qed.

(** What a run of the loop that comes back has done: it appended one record
    for each socket it created, in order, and touched nothing else. *)
Lemma open_each_Ok port_ info :
  forall b b' (w w' : world K),
    SocketOpener.open_each port_ info b w = Ok b' w' ->
    exists new,
      trace w' = trace w ++ new /\
      SocketOpener.sockets_open b'
      = (SocketOpener.sockets_open b + length (SocketOpener.created new))%nat /\
      (length (SocketOpener.created new) + SocketOpener.refused new)%nat = length info /\
      length (SocketOpener.sockets b') = length (SocketOpener.sockets b) /\
      (forall i, (i < SocketOpener.sockets_open b)%nat ->
                 SocketOpener.sockets b' !! i = SocketOpener.sockets b !! i) /\
      (forall j fd, SocketOpener.created new !! j = Some fd ->
                    SocketOpener.sockets b' !! (SocketOpener.sockets_open b + j)%nat
                    = Some (SocketOpener.record_for port_ fd) /\
                    fd <> -1 /\
                    Exists (fun e => SocketOpener.requests_nonblock fd e = true) new).
Proof.
  induction info as [|p info IH]; intros b b' w w' Hrun.
  - injection Hrun as <- <-. exists [].
    rewrite app_nil_r. simpl.
    split; [reflexivity|]. split; [lia|]. split; [reflexivity|]. split; [reflexivity|].
    split; [reflexivity|]. intros j fd Hj. discriminate.
  - cbn [SocketOpener.open_each] in Hrun.
    apply bindM_Ok_inv in Hrun as (b1 & w1 & Hone & Hrest).
    destruct (IH _ _ _ _ Hrest) as (new2 & Htr & Hcount & Hall & Hlen & Hframe & Hrecs).
    apply open_one_Ok in Hone
      as [[-> Hone]|(fd & fl & rs & Hfd & Hlt & -> & Hone)].
    + exists ([EvSocket (ai_family p) (ai_socktype p) IPPROTO_UDP (-1)] ++ new2).
      rewrite created_app, refused_app.
      change (SocketOpener.created [EvSocket (ai_family p) (ai_socktype p) IPPROTO_UDP (-1)])
        with (@nil Z).
      change (SocketOpener.refused [EvSocket (ai_family p) (ai_socktype p) IPPROTO_UDP (-1)])
        with 1%nat.
      cbn [app length].
      rewrite Htr, Hone, <- app_assoc.
      split; [reflexivity|]. split; [exact Hcount|]. split; [lia|]. split; [exact Hlen|].
      split; [exact Hframe|].
      intros j fd Hj. destruct (Hrecs j fd Hj) as (Hrec & Hfd & Hnb).
      split; [exact Hrec|]. split; [exact Hfd|].
      apply (Exists_app _ [_] new2). by right.
    + destruct (created_listening port_ p fd fl rs Hfd) as [Hcr Href].
      cbn [SocketOpener.sockets_open SocketOpener.sockets] in *.
      rewrite length_insert in Hlen.
      exists (SocketOpener.listening_events port_ p fd fl rs ++ new2).
      rewrite created_app, refused_app, Hcr, Href. cbn [app length].
      rewrite Htr, Hone, <- app_assoc.
      split; [reflexivity|]. split; [lia|]. split; [lia|]. split; [exact Hlen|].
      split.
      * intros i Hi. rewrite Hframe by lia.
        apply list_lookup_insert_ne. lia.
      * intros [|j] fd' Hj; cbn [lookup list_lookup] in Hj.
        -- injection Hj as <-. rewrite Nat.add_0_r, Hframe by lia.
           split; [by apply list_lookup_insert_eq|]. split; [exact Hfd|].
           apply Exists_app. left. apply nonblock_listening.
        -- destruct (Hrecs j fd' Hj) as (Hrec & Hfd' & Hnb).
           split; [rewrite <- Hrec; f_equal; lia|]. split; [exact Hfd'|].
           apply Exists_app. by right.
Qed.

(** A run of [open_sockets_at_port] that comes back resolved the families
    and ran the loop on them; the resolver leaves no event. *)
Lemma open_sockets_Ok port_ b b' (w w' : world K) :
  SocketOpener.open_sockets_at_port port_ b w = Ok b' w' ->
  exists k1,
    sys_getaddrinfo (SocketOpener.portstr port_) SocketOpener.hints (kernel w)
    = ((0, SocketOpener.resolved port_ w), k1) /\
    SocketOpener.open_each port_ (SocketOpener.resolved port_ w) b (World k1 (trace w))
    = Ok b' w'.
Proof.
  unfold SocketOpener.open_sockets_at_port, SocketOpener.resolved, bindM at 1,
    getaddrinfo, lift_sys.
  destruct (sys_getaddrinfo _ _ _) as [[rc info] k1]. cbn [fst snd].
  unfold bindM. destruct (Z.eqb_spec rc 0) as [->|Hrc]; cbn [negb].
  - unfold ret. intros Hrun. by exists k1.
  - unfold die. discriminate.
Qed.

Lemma open_each_no_fault port_ info :
  forall b (w w' : world K),
    SocketOpener.open_each port_ info b w = Fault w' ->
    (length (SocketOpener.sockets b) < SocketOpener.sockets_open b + length info)%nat.
Proof.
  induction info as [|p info IH]; intros b w w' Hrun; [discriminate|].
  cbn [SocketOpener.open_each] in Hrun. unfold bindM in Hrun.
  destruct (SocketOpener.open_one port_ p b w) as [b1 w1| | |] eqn:Hone;
    try discriminate.
  - apply IH in Hrun.
    apply open_one_Ok in Hone as [[-> _]|(fd & fl & rs & _ & Hlt & -> & _)].
    + simpl. lia.
    + cbn [SocketOpener.sockets_open SocketOpener.sockets length] in *.
      rewrite length_insert in Hrun. lia.
  - apply open_one_no_fault in Hone. simpl. lia.
Qed.

(** The trace only grows. *)
Lemma open_one_trace port_ p b (w w' : world K) :
  final_state (SocketOpener.open_one port_ p b w) = Some w' ->
  exists new, trace w' = trace w ++ new.
Proof.
  unfold SocketOpener.open_one, SocketOpener.setup_socket.
  run_calls; cbn [final_state]; intros [= <-]; cbn [trace];
    rewrite <- ?app_assoc; eauto.
Qed.

Lemma open_each_trace port_ info :
  forall b (w w' : world K),
    final_state (SocketOpener.open_each port_ info b w) = Some w' ->
    exists new, trace w' = trace w ++ new.
Proof.
  induction info as [|p info IH]; intros b w w' Hfin.
  - injection Hfin as <-. exists []. by rewrite app_nil_r.
  - cbn [SocketOpener.open_each] in Hfin. unfold bindM in Hfin.
    destruct (SocketOpener.open_one port_ p b w) as [b1 w1|m w1|w1|] eqn:Hone;
      try discriminate.
    + destruct (open_one_trace port_ p b w w1) as [new1 Hnew1]; [by rewrite Hone|].
      destruct (IH _ _ _ Hfin) as [new2 Hnew2].
      exists (new1 ++ new2). by rewrite Hnew2, Hnew1, app_assoc.
    + apply (open_one_trace port_ p b w). by rewrite Hone.
    + apply (open_one_trace port_ p b w). by rewrite Hone.
Qed.

(** In the loop too a checked call that failed ends the process, with the
    message for one of the families and the port. *)
Lemma open_each_failed port_ info :
  forall b e (w : world K),
    e ∈ events_since w (SocketOpener.open_each port_ info b w) ->
    SocketOpener.failed_setup e = true ->
    exists p err w',
      p ∈ info /\
      SocketOpener.open_each port_ info b w
      = Exit (SocketOpener.listen_failure (ai_family p) port_ err) w'.
Proof.
  induction info as [|p info IH]; intros b e w Hin Hfailed.
  - unfold events_since in Hin. simpl in Hin. rewrite drop_all in Hin.
    by apply elem_of_nil in Hin.
  - cbn [SocketOpener.open_each] in *. unfold bindM in *.
    destruct (SocketOpener.open_one port_ p b w) as [b1 w1|m w1|w1|] eqn:Hone.
    + destruct (open_one_trace port_ p b w w1) as [new1 Hnew1];
        [by rewrite Hone|].
      destruct (final_state (SocketOpener.open_each port_ info b1 w1)) as [w2|] eqn:Hfin;
        [|unfold events_since in Hin; rewrite Hfin in Hin; by apply elem_of_nil in Hin].
      destruct (open_each_trace port_ info b1 w1 w2 Hfin) as [new2 Hnew2].
      rewrite (events_since_trace w w2 _ (new1 ++ new2)) in Hin;
        [|exact Hfin|by rewrite Hnew2, Hnew1, app_assoc].
      apply elem_of_app in Hin as [Hin|Hin].
      * exfalso.
        destruct (open_one_failed port_ p b e w) as (err & w' & Hexit);
          [|exact Hfailed|congruence].
        rewrite (events_since_trace w w1 _ new1); [exact Hin| by rewrite Hone |exact Hnew1].
      * destruct (IH b1 e w1) as (q & err & w' & Hq & Hexit);
          [|exact Hfailed|].
        { rewrite (events_since_trace w1 w2 _ new2); [exact Hin|exact Hfin|exact Hnew2]. }
        exists q, err, w'. split; [apply elem_of_cons; by right|exact Hexit].
    + destruct (open_one_failed port_ p b e w) as (err & w' & Hexit);
        [by rewrite Hone|exact Hfailed|].
      exists p, err, w'. split; [apply elem_of_cons; by left|]. congruence.
    + exfalso.
      destruct (open_one_failed port_ p b e w) as (err & w' & Hexit);
        [by rewrite Hone|exact Hfailed|congruence].
    + unfold events_since in Hin. simpl in Hin. by apply elem_of_nil in Hin.
Qed.

Lemma open_sockets_unfold port_ b (w : world K) :
  exists rc k1,
    sys_getaddrinfo (SocketOpener.portstr port_) SocketOpener.hints (kernel w)
    = ((rc, SocketOpener.resolved port_ w), k1) /\
    SocketOpener.open_sockets_at_port port_ b w
    = if rc =? 0
      then SocketOpener.open_each port_ (SocketOpener.resolved port_ w) b (World k1 (trace w))
      else Exit (SocketOpener.resolver_failure rc) (World k1 (trace w)).
Proof.
  unfold SocketOpener.open_sockets_at_port, SocketOpener.resolved, bindM at 1,
    getaddrinfo, lift_sys.
  destruct (sys_getaddrinfo _ _ _) as [[rc info] k1]. cbn [fst snd].
  exists rc, k1. split; [reflexivity|].
  unfold bindM. by destruct (rc =? 0).
Qed.

(** C9. A run of [open_sockets_at_port] that comes back only appended to the
    bundle: with [n] the count on entry, every record below index [n] is as
    it was, the count did not decrease, it grew by the number of records the
    run appended (one for each socket it created), these records are the
    ones from index [n] on, and the array kept its length. *)
Theorem open_sockets_only_appends port_ b b' (w w' : world K) :
  SocketOpener.open_sockets_at_port port_ b w = Ok b' w' ->
  let n := SocketOpener.sockets_open b in
  let appended := SocketOpener.created (events_since w (Ok b' w')) in
  (forall i, (i < n)%nat ->
             SocketOpener.sockets b' !! i = SocketOpener.sockets b !! i) /\
  (n <= SocketOpener.sockets_open b')%nat /\
  SocketOpener.sockets_open b' = (n + length appended)%nat /\
  (forall j fd, appended !! j = Some fd ->
                SocketOpener.sockets b' !! (n + j)%nat
                = Some (SocketOpener.record_for port_ fd)) /\
  length (SocketOpener.sockets b') = length (SocketOpener.sockets b).
Proof.
  intros Hrun n appended.
  apply open_sockets_Ok in Hrun as (k1 & _ & Hloop).
  apply open_each_Ok in Hloop as (new & Htr & Hcount & _ & Hlen & Hframe & Hrecs).
  cbn [trace] in Htr.
  assert (Hnew : events_since w (Ok b' w') = new)
    by (apply (events_since_trace w w'); [reflexivity | exact Htr]).
  subst appended n. rewrite Hnew.
  split; [exact Hframe|]. split; [lia|]. split; [exact Hcount|].
  split; [|exact Hlen].
  intros j fd Hj. by destruct (Hrecs j fd Hj).
Qed.

(** C4 (as amended). With room in the bundle for every resolved family a run
    of [open_sockets_at_port] never leaves the array; and after a run that
    comes back, the count is the count on entry plus the number of sockets
    created, which is the number of resolved families less those whose
    socket could not be created; every appended record holds the port and a
    descriptor other than -1 on which the run asked for [O_NONBLOCK]. *)
Theorem open_sockets_count port_ b (w : world K) :
  ((SocketOpener.sockets_open b + length (SocketOpener.resolved port_ w)
    <= length (SocketOpener.sockets b))%nat ->
   forall w', SocketOpener.open_sockets_at_port port_ b w <> Fault w') /\
  (forall b' w',
      SocketOpener.open_sockets_at_port port_ b w = Ok b' w' ->
      let new := events_since w (Ok b' w') in
      SocketOpener.sockets_open b'
      = (SocketOpener.sockets_open b + length (SocketOpener.created new))%nat /\
      (length (SocketOpener.created new) + SocketOpener.refused new)%nat
      = length (SocketOpener.resolved port_ w) /\
      forall j fd,
        SocketOpener.created new !! j = Some fd ->
        SocketOpener.sockets b' !! (SocketOpener.sockets_open b + j)%nat
        = Some {| SocketOpener.number := fd; SocketOpener.port := port_ |} /\
        fd <> -1 /\
        Exists (fun e => SocketOpener.requests_nonblock fd e = true) new).
Proof.
  split.
  - intros Hroom w' Hrun.
    destruct (open_sockets_unfold port_ b w) as (rc & k1 & _ & Heq).
    rewrite Heq in Hrun. destruct (rc =? 0); [|discriminate].
    apply open_each_no_fault in Hrun. lia.
  - intros b' w' Hrun new.
    apply open_sockets_Ok in Hrun as (k1 & _ & Hloop).
    apply open_each_Ok in Hloop as (new' & Htr & Hcount & Hall & _ & _ & Hrecs).
    cbn [trace] in Htr.
    assert (Hnew : new = new')
      by (apply (events_since_trace w w'); [reflexivity | exact Htr]).
    rewrite Hnew. auto.
Qed.

(** C5. A family whose socket cannot be created is skipped: the bundle is as
    it was, the failed call is the only event (no line is logged), and the
    loop goes on with the next family. Once the socket is created, a
    [setsockopt] (the dual-stack option or the timestamping) or a [bind]
    that does not return 0 ends the process, with the message written out
    below ([q] is the double quote): its arguments are the name of the
    address family, IPv6 or IPv4, the port and the text of the error; this
    holds for the family at hand and for the run of [open_sockets_at_port]
    as a whole. *)
Theorem open_sockets_failure_policy port_ p info b (w : world K) :
  let q := String (ascii_of_nat 34) EmptyString in
  let unable_to_listen := fun family err =>
    {| fmt := "unable to listen on %s port %d. The error is: " +:+ q +:+ "%s" +:+ q
              +:+ ". Daemon must run as root. Or is a separate PTP daemon running?";
       args := [AStr (if family =? AF_INET6 then "IPv6" else "IPv4");
                AInt port_; AStr err] |} in
  (forall k1,
      sys_socket (ai_family p) (ai_socktype p) IPPROTO_UDP (kernel w) = (-1, k1) ->
      let w1 := World k1 (trace w ++
                  [EvSocket (ai_family p) (ai_socktype p) IPPROTO_UDP (-1)]) in
      SocketOpener.open_one port_ p b w = Ok b w1 /\
      SocketOpener.open_each port_ (p :: info) b w = SocketOpener.open_each port_ info b w1) /\
  (forall e,
      e ∈ events_since w (SocketOpener.open_one port_ p b w) ->
      SocketOpener.failed_setup e = true ->
      exists err w',
        SocketOpener.open_one port_ p b w
        = Exit (unable_to_listen (ai_family p) err) w') /\
  (forall e,
      e ∈ events_since w (SocketOpener.open_sockets_at_port port_ b w) ->
      SocketOpener.failed_setup e = true ->
      exists p' err w',
        p' ∈ SocketOpener.resolved port_ w /\
        SocketOpener.open_sockets_at_port port_ b w
        = Exit (unable_to_listen (ai_family p') err) w').
Proof.
  intros q unable_to_listen.
  assert (Hmsg : forall family err,
             SocketOpener.listen_failure family port_ err = unable_to_listen family err).
  { intros family err. subst unable_to_listen q.
    unfold SocketOpener.listen_failure, SocketOpener.family_name.
    by destruct (family =? AF_INET6). }
  split; [|split].
  - intros k1 Hsock w1.
    pose proof (open_one_refused port_ p b k1 w Hsock) as Hone.
    split; [exact Hone|].
    cbn [SocketOpener.open_each]. unfold bindM. by rewrite Hone.
  - intros e Hin Hfailed.
    destruct (open_one_failed port_ p b e w Hin Hfailed) as (err & w' & Hexit).
    exists err, w'. by rewrite <- Hmsg.
  - intros e Hin Hfailed.
    destruct (open_sockets_unfold port_ b w) as (rc & k1 & _ & Heq).
    rewrite Heq in *. destruct (rc =? 0).
    + destruct (open_each_failed port_ _ b e (World k1 (trace w)) Hin Hfailed)
        as (p' & err & w' & Hp' & Hexit).
      exists p', err, w'. split; [exact Hp'|]. by rewrite <- Hmsg.
    + unfold events_since in Hin. cbn [final_state trace] in Hin.
      rewrite drop_all in Hin. by apply elem_of_nil in Hin.
Qed.

(** C3 (as amended). For a family whose socket was created with descriptor
    [fd]: if the family is IPv6, the call that follows the creation sets
    [IPV6_V6ONLY] to 1 on [fd], which switches the suppression of IPv4 on
    that socket on; a [bind] is only made after it and only if it returned
    0. For any other family no IPv6 option is set. *)
Theorem open_one_sets_v6only port_ p b fd k1 (w : world K) :
  sys_socket (ai_family p) (ai_socktype p) IPPROTO_UDP (kernel w) = (fd, k1) ->
  fd <> -1 ->
  let new := events_since w (SocketOpener.open_one port_ p b w) in
  (ai_family p = AF_INET6 ->
   exists r rest,
     new = EvSocket (ai_family p) (ai_socktype p) IPPROTO_UDP fd
           :: EvSetsockopt fd IPPROTO_IPV6 IPV6_V6ONLY 1 r :: rest /\
     (Exists (fun e => SocketOpener.is_bind e = true) rest -> r = 0) /\
     (r = 0 -> SocketOpener.v4_on_v6_suppressed fd (take 2 new))) /\
  (ai_family p <> AF_INET6 ->
   Forall (fun e => SocketOpener.is_ipv6_option e = false) new).
Proof.
  intros Hsock Hfd new.
  assert (Hrun : SocketOpener.open_one port_ p b w
                 = SocketOpener.setup_socket port_ p fd b
                     (World k1 (trace w ++
                        [EvSocket (ai_family p) (ai_socktype p) IPPROTO_UDP fd]))).
  { unfold SocketOpener.open_one, bindM at 1, socket, lift_sys.
    rewrite Hsock. by destruct (Z.eqb_spec fd (-1)). }
  subst new. rewrite Hrun. clear Hrun.
  unfold SocketOpener.setup_socket.
  split.
  - intros Hv6.
    destruct (Z.eqb_spec (ai_family p) AF_INET6) as [_|]; [|contradiction].
    match goal with
    | |- exists r rest, events_since w ?run = _ /\ _ /\ _ =>
        assert (Hshape : exists r rest,
                   events_since w run
                   = EvSocket (ai_family p) (ai_socktype p) IPPROTO_UDP fd
                     :: EvSetsockopt fd IPPROTO_IPV6 IPV6_V6ONLY 1 r :: rest /\
                   (Exists (fun e => SocketOpener.is_bind e = true) rest -> r = 0))
    end.
    { run_calls; read_events; eexists _, _; (split; [reflexivity|]);
        try (intros _; lia);
        intros Hex; exfalso; apply Exists_exists in Hex as (e' & Hin & Hb);
        repeat (apply elem_of_cons in Hin as [->|Hin]; [discriminate Hb|]);
        by apply elem_of_nil in Hin. }
    destruct Hshape as (r & rest & Heq & Hbind).
    exists r, rest. split; [exact Heq|]. split; [exact Hbind|].
    intros ->. rewrite Heq. cbn [take]. exists 1. split; [|lia].
    unfold SocketOpener.v6only_setting. simpl.
    by rewrite Z.eqb_refl.
  - intros Hv4. apply Z.eqb_neq in Hv4. rewrite Hv4.
    run_calls; read_events;
      repeat (apply Forall_cons; split; [reflexivity|]); apply Forall_nil_2.
Qed.
End OpenProofs.

(** ** SocketOpener on the sample systems *)

(** C3 (the claim as stated fails). On a system where both families open,
    the run sets [IPV6_V6ONLY] to 1 on the IPv6 socket, descriptor 4: the
    suppression of IPv4 on that socket is switched on, not off. *)
Lemma open_sockets_v6only_counterexample :
  SocketOpener.created
    (events_since (Samples.net Samples.both_open)
       (SocketOpener.open_sockets_at_port 319 Samples.empty_bundle
          (Samples.net Samples.both_open))) = [3; 4] /\
  SocketOpener.v4_on_v6_suppressed 4
    (events_since (Samples.net Samples.both_open)
       (SocketOpener.open_sockets_at_port 319 Samples.empty_bundle
          (Samples.net Samples.both_open))) /\
  ~ SocketOpener.v4_on_v6_suppression_disabled 4
      (events_since (Samples.net Samples.both_open)
         (SocketOpener.open_sockets_at_port 319 Samples.empty_bundle
            (Samples.net Samples.both_open))).
Proof.
  split; [vm_compute; reflexivity|]. split.
  - exists 1. split; [vm_compute; reflexivity | discriminate].
  - unfold SocketOpener.v4_on_v6_suppression_disabled. vm_compute. discriminate.
Qed.

(** The IPv6 family on a system where every call succeeds; the socket is
    descriptor 4. *)
Lemma open_one_sets_v6only_witness :
  exists r rest,
    events_since (Samples.net [4; 0; 0; 0; 2; 0])
      (SocketOpener.open_one 319 Samples.v6 Samples.empty_bundle
         (Samples.net [4; 0; 0; 0; 2; 0]))
    = EvSocket AF_INET6 SOCK_DGRAM IPPROTO_UDP 4
      :: EvSetsockopt 4 IPPROTO_IPV6 IPV6_V6ONLY 1 r :: rest.
Proof.
  destruct (open_one_sets_v6only 319 Samples.v6 Samples.empty_bundle 4
              (snd (Script.next_int (kernel (Samples.net [4; 0; 0; 0; 2; 0]))))
              (Samples.net [4; 0; 0; 0; 2; 0]))
    as (Hv6 & _); [vm_compute; reflexivity | lia |].
  destruct Hv6 as (r & rest & Heq & _); [reflexivity|].
  exists r, rest. exact Heq.
Defined.

(** C4 (the claim as stated fails). The bundle already holds the two sockets
    of port 319; the resolver returns two families for port 320 and the
    socket for IPv6 cannot be created. The run comes back with a count of 3:
    neither the number of resolved families, 2, nor the number of sockets
    this run created, 1. *)
Lemma open_sockets_count_counterexample :
  SocketOpener.open_sockets_at_port 320 Samples.bundle_319 (Samples.net Samples.v6_refused)
  = Ok Samples.bundle_320
       (state_after (SocketOpener.open_sockets_at_port 320 Samples.bundle_319
                       (Samples.net Samples.v6_refused))
                    (Samples.net Samples.v6_refused)) /\
  length (SocketOpener.resolved 320 (Samples.net Samples.v6_refused)) = 2%nat /\
  SocketOpener.created
    (events_since (Samples.net Samples.v6_refused)
       (SocketOpener.open_sockets_at_port 320 Samples.bundle_319
          (Samples.net Samples.v6_refused))) = [5] /\
  SocketOpener.sockets_open Samples.bundle_320 = 3%nat /\
  SocketOpener.sockets_open Samples.bundle_320
  <> length (SocketOpener.resolved 320 (Samples.net Samples.v6_refused)).
Proof.
  split; [vm_compute; reflexivity|].
  split; [vm_compute; reflexivity|].
  split; [vm_compute; reflexivity|].
  split; [reflexivity|].
  vm_compute. discriminate.
Qed.

(** Port 320 on the bundle that holds port 319, IPv6 refused: the count goes
    from 2 to 3, and one created plus one refused are the two families. *)
Lemma open_sockets_count_witness :
  SocketOpener.sockets_open Samples.bundle_320 = (2 + 1)%nat /\
  (1 + 1)%nat = length (SocketOpener.resolved 320 (Samples.net Samples.v6_refused)).
Proof.
  assert (Hrun : SocketOpener.open_sockets_at_port 320 Samples.bundle_319
                   (Samples.net Samples.v6_refused)
                 = Ok Samples.bundle_320
                      (state_after (SocketOpener.open_sockets_at_port 320 Samples.bundle_319
                                      (Samples.net Samples.v6_refused))
                                   (Samples.net Samples.v6_refused)))
    by (vm_compute; reflexivity).
  destruct (open_sockets_count 320 Samples.bundle_319 (Samples.net Samples.v6_refused))
    as (_ & Hret).
  destruct (Hret _ _ Hrun) as (Hcount & Hall & _).
  split.
  - rewrite Hcount. vm_compute. reflexivity.
  - rewrite <- Hall. vm_compute. reflexivity.
Defined.

(** The same run: the record at index 1 is the one of port 319, the record
    at index 2 is the new one. *)
Lemma open_sockets_only_appends_witness :
  SocketOpener.sockets Samples.bundle_320 !! 1%nat
  = SocketOpener.sockets Samples.bundle_319 !! 1%nat /\
  SocketOpener.sockets Samples.bundle_320 !! (2 + 0)%nat
  = Some (SocketOpener.record_for 320 5).
Proof.
  assert (Hrun : SocketOpener.open_sockets_at_port 320 Samples.bundle_319
                   (Samples.net Samples.v6_refused)
                 = Ok Samples.bundle_320
                      (state_after (SocketOpener.open_sockets_at_port 320 Samples.bundle_319
                                      (Samples.net Samples.v6_refused))
                                   (Samples.net Samples.v6_refused)))
    by (vm_compute; reflexivity).
  destruct (open_sockets_only_appends 320 Samples.bundle_319 _
              (Samples.net Samples.v6_refused) _ Hrun)
    as (Hframe & _ & _ & Hrecs & _).
  split.
  - apply (Hframe 1%nat). vm_compute. lia.
  - apply (Hrecs 0%nat 5). vm_compute. reflexivity.
Defined.

(** IPv6 refused on an empty bundle; and a run in which the bind of the IPv6
    socket fails. *)
Lemma open_sockets_failure_policy_witness :
  SocketOpener.open_one 319 Samples.v6 Samples.empty_bundle (Samples.net [-1])
  = Ok Samples.empty_bundle
       (World (snd (Script.next_int (kernel (Samples.net [-1]))))
              (trace (Samples.net [-1])
                 ++ [EvSocket (ai_family Samples.v6) (ai_socktype Samples.v6) IPPROTO_UDP (-1)]))
  /\ exists p' err w',
      p' ∈ SocketOpener.resolved 319 (Samples.net Samples.v6_bind_fails) /\
      SocketOpener.open_sockets_at_port 319 Samples.empty_bundle
        (Samples.net Samples.v6_bind_fails)
      = Exit {| fmt := "unable to listen on %s port %d. The error is: "
                       +:+ String (ascii_of_nat 34) EmptyString +:+ "%s"
                       +:+ String (ascii_of_nat 34) EmptyString
                       +:+ ". Daemon must run as root. Or is a separate PTP daemon running?";
                args := [AStr (if ai_family p' =? AF_INET6 then "IPv6" else "IPv4");
                         AInt 319; AStr err] |} w'.
Proof.
  destruct (open_sockets_failure_policy 319 Samples.v6 [] Samples.empty_bundle
              (Samples.net [-1])) as (Hskip & _ & _).
  destruct (open_sockets_failure_policy 319 Samples.v6 [] Samples.empty_bundle
              (Samples.net Samples.v6_bind_fails)) as (_ & _ & Hfatal).
  split.
  - apply (Hskip (snd (Script.next_int (kernel (Samples.net [-1]))))).
    vm_compute. reflexivity.
  - apply (Hfatal (EvBind 4 (ai_addr Samples.v6) (-1))); [|reflexivity].
    apply list_elem_of_In. vm_compute. tauto.
Defined.

(** * Further properties *)

(** ** The dump as a text *)

Lemma printed_alphabet plat b : Forall (fun c => dump_char c = true) (printed plat b).
Proof.
  unfold printed, FrameDumper.char_to_int.
  destruct (char_signed plat); destruct b; vm_compute;
    repeat (constructor; [reflexivity|]); constructor.
Qed.

Lemma separator_alphabet k n : Forall (fun c => dump_char c = true) (separator k n).
Proof.
  unfold separator.
  repeat match goal with |- context [if ?c then _ else _] => destruct c end;
    vm_compute; repeat (constructor; [reflexivity|]); constructor.
Qed.

Lemma render_from_alphabet plat k n bs :
  Forall (fun c => dump_char c = true) (render_from (printed plat) k n bs).
Proof.
  revert k. induction bs as [|b bs IH]; intros k; simpl.
  - constructor.
  - rewrite !Forall_app. auto using printed_alphabet, separator_alphabet.
Qed.

(** The separator after byte [k + 1] has the length by which the count of
    separator characters grows. *)
Lemma separator_exact k n :
  0 <= k -> k + 1 <> n ->
  Z.of_nat (length (separator (k + 1) n))
  = ((k + 1) / 4 + 2 * ((k + 1) / 16) + (k + 1) / 32) - (k / 4 + 2 * (k / 16) + k / 32).
Proof.
  intros Hk Hn. unfold separator.
  repeat match goal with
         | |- context [Z.eqb ?a ?b] => destruct (Z.eqb_spec a b)
         end;
    cbn [length chars list_ascii_of_string]; Z.div_mod_to_equations; lia.
Qed.

Lemma render_from_exact (pr : byte -> list ascii) k bs :
  (forall b, length (pr b) = 2%nat) -> 0 <= k -> bs <> [] ->
  let n := k + Z.of_nat (length bs) in
  Z.of_nat (length (render_from pr k n bs))
  = 2 * Z.of_nat (length bs)
    + (((n - 1) / 4 + 2 * ((n - 1) / 16) + (n - 1) / 32)
       - (k / 4 + 2 * (k / 16) + k / 32)).
Proof.
  intros Hpr. revert k. induction bs as [|b bs IH]; intros k Hk Hne n; [done|].
  subst n. cbn [render_from]. rewrite !length_app, Hpr.
  destruct bs as [|b' bs].
  - cbn [length render_from]. 
    replace (k + Z.of_nat 1) with (k + 1) by lia.
    unfold separator. rewrite Z.eqb_refl. cbn [length].
    replace (k + 1 - 1) with k by lia. lia.
  - specialize (IH (k + 1) ltac:(lia) ltac:(discriminate)).
    cbv zeta in IH.
    replace (k + 1 + Z.of_nat (length (b' :: bs)))
      with (k + Z.of_nat (length (b :: b' :: bs))) in IH by (cbn [length]; lia).
    pose proof (separator_exact k (k + Z.of_nat (length (b :: b' :: bs))) Hk
                  ltac:(cbn [length]; lia)) as Hsep.
    rewrite !Nat2Z.inj_add, IH, Hsep.
    cbn [length]. lia.
Qed.

Lemma render_with_exact (pr : byte -> list ascii) bs :
  (forall b, length (pr b) = 2%nat) ->
  Z.of_nat (length (render_with pr bs)) = render_length (Z.of_nat (length bs)).
Proof.
  intros Hpr. unfold render_with, render_length.
  destruct bs as [|b bs]; [reflexivity|].
  destruct (Z.eqb_spec (Z.of_nat (length (b :: bs))) 0) as [Hz|_];
    [cbn [length] in Hz; lia|].
  pose proof (render_from_exact pr 0 (b :: bs) Hpr ltac:(lia) ltac:(discriminate)) as Hlen.
  cbv zeta in Hlen. rewrite Z.add_0_l in Hlen. rewrite Hlen.
  change (0 / 4) with 0. change (0 / 16) with 0. change (0 / 32) with 0. lia.
Qed.

Lemma text_chars cs : chars (text cs) = cs.
Proof. apply list_ascii_of_string_of_list_ascii. Qed.

(** Reading back. *)
Lemma undump_separator k n : omap hex_value (separator k n) = [].
Proof.
  unfold separator.
  repeat match goal with |- context [if ?c then _ else _] => destruct c end;
    reflexivity.
Qed.

Lemma pair_up_hex2 b ds : pair_up (omap hex_value (hex2 b) ++ ds) = b :: pair_up ds.
Proof. destruct b; reflexivity. Qed.

Lemma undump_render_from k n bs : undump (render_from hex2 k n bs) = bs.
Proof.
  unfold undump. revert k. induction bs as [|b bs IH]; intros k; [reflexivity|].
  cbn [render_from]. rewrite !omap_app, undump_separator. cbn [app].
  by rewrite pair_up_hex2, IH.
Qed.

(** ** Traces and stores *)

Lemma logged_texts_tagged level first s : logged_texts [tagged_line level first s] = [s].
Proof. unfold tagged_line. by destruct (tag_of first). Qed.

Lemma events_since_same {K A} (w : world K) (a : A) k :
  events_since w (Ok a (World k (trace w))) = [].
Proof. unfold events_since. simpl. apply drop_all. Qed.

Lemma store_chars_overflow (cs : list ascii) :
  forall (blk : block) (off : nat),
    (off <= length blk)%nat -> (length blk < off + length cs)%nat ->
    store_chars blk off cs = None.
Proof.
  unfold block. induction cs as [|c cs IH]; intros blk off Hoff Hover; simpl in *; [lia|].
  unfold store. destruct (Nat.ltb_spec off (length blk)) as [Hlt|_]; [|reflexivity].
  unfold block. apply IH; rewrite length_insert; lia.
Qed.

Lemma bindM_untouched {K A B} (c : M (world K) A) (f : A -> M (world K) B) (w : world K) :
  untouched w (c w) -> (forall a, untouched w (f a w)) -> untouched w (bindM c f w).
Proof.
  unfold bindM. intros Hc Hf. destruct (c w) as [a w1|m w1|w1|]; simpl in *;
    try subst w1; auto.
Qed.

Lemma checked_untouched {K A} (o : option A) (w : world K) : untouched w (checked o w).
Proof. destruct o; reflexivity. Qed.

Lemma bindM_one_line {K A B} (c : M (world K) A) (f : A -> M (world K) B) (w : world K) :
  untouched w (c w) ->
  (forall a, at_most_one_line (events_since w (f a w))) ->
  at_most_one_line (events_since w (bindM c f w)).
Proof.
  unfold bindM. intros Hc Hf. destruct (c w) as [a w1|m w1|w1|]; simpl in Hc.
  - subst w1. apply Hf.
  - done.
  - subst w1. left. unfold events_since. simpl. apply drop_all.
  - left. reflexivity.
Qed.

(** ** Further properties of [debug_print_buffer] *)

Section DumpExtras.
Context {K : Type} `{OS K}.
Variable plat : platform.

Lemma format_byte_untouched buf n i obf obfp (w : world K) :
  untouched w (FrameDumper.format_byte plat buf n i obf obfp w).
Proof.
  unfold FrameDumper.format_byte.
  apply bindM_untouched; [apply checked_untouched|]. intros c.
  apply bindM_untouched; [apply checked_untouched|]. intros obf1.
  repeat match goal with
         | |- context [if ?c then _ else _] => destruct c
         end;
    try reflexivity;
    (apply bindM_untouched; [apply checked_untouched | intros; reflexivity]).
Qed.

Lemma format_loop_untouched fuel buf n i obf obfp (w : world K) :
  untouched w (FrameDumper.format_loop plat fuel buf n i obf obfp w).
Proof.
  revert i obf obfp. induction fuel as [|fuel IH]; intros i obf obfp; simpl.
  - exact I.
  - destruct (i <? n); [|reflexivity].
    apply bindM_untouched; [apply format_byte_untouched|]. intros st. apply IH.
Qed.

(** X1. On a length the code is written for, the text that is logged has
    exactly [render_length n] characters. *)
Theorem dump_text_length fuel level buf n first k' (w : world K) :
  dumpable plat buf n ->
  (Z.to_nat n < fuel)%nat ->
  buf !! 0%nat = Some first ->
  sys_malloc (4 * n + 1) (kernel w) = (true, k') ->
  exists line,
    FrameDumper.debug_print_buffer plat fuel level buf n w
    = Ok tt (World k' (trace w ++ [tagged_line level first (text line)])) /\
    Z.of_nat (length line) = render_length n.
Proof.
  intros Hd Hfuel Hfirst Hmalloc.
  exists (render_with (printed plat) (take (Z.to_nat n) buf)).
  split; [by apply dump_logs_line|].
  rewrite render_with_exact by apply printed_length.
  destruct Hd as (Hn & _ & Hbuf). rewrite length_take. f_equal. lia.
Qed.

(** X2. The text that is logged is made of uppercase hexadecimal digits,
    spaces and bars only. *)
Theorem dump_text_alphabet fuel level buf n first k' (w : world K) :
  dumpable plat buf n ->
  (Z.to_nat n < fuel)%nat ->
  buf !! 0%nat = Some first ->
  sys_malloc (4 * n + 1) (kernel w) = (true, k') ->
  exists line,
    FrameDumper.debug_print_buffer plat fuel level buf n w
    = Ok tt (World k' (trace w ++ [tagged_line level first (text line)])) /\
    Forall (fun c => dump_char c = true) line.
Proof.
  intros Hd Hfuel Hfirst Hmalloc.
  exists (render_with (printed plat) (take (Z.to_nat n) buf)).
  split; [by apply dump_logs_line | apply render_from_alphabet].
Qed.

(** X3. Where plain [char] is unsigned the dump loses nothing: two buffers
    that are logged with the same text hold the same bytes. *)
Theorem dump_lossless_unsigned fuel1 fuel2 level1 level2 buf1 buf2 n1 n2
        first1 first2 k1 k2 (w1 w2 : world K) :
  char_signed plat = false ->
  dumpable plat buf1 n1 -> dumpable plat buf2 n2 ->
  (Z.to_nat n1 < fuel1)%nat -> (Z.to_nat n2 < fuel2)%nat ->
  buf1 !! 0%nat = Some first1 -> buf2 !! 0%nat = Some first2 ->
  sys_malloc (4 * n1 + 1) (kernel w1) = (true, k1) ->
  sys_malloc (4 * n2 + 1) (kernel w2) = (true, k2) ->
  logged_texts (events_since w1 (FrameDumper.debug_print_buffer plat fuel1 level1 buf1 n1 w1))
  = logged_texts (events_since w2 (FrameDumper.debug_print_buffer plat fuel2 level2 buf2 n2 w2)) ->
  take (Z.to_nat n1) buf1 = take (Z.to_nat n2) buf2.
Proof.
  intros Hu Hd1 Hd2 Hf1 Hf2 Hb1 Hb2 Hm1 Hm2.
  rewrite (dump_renders_unsigned plat fuel1 level1 buf1 n1 first1 k1 w1) by assumption.
  rewrite (dump_renders_unsigned plat fuel2 level2 buf2 n2 first2 k2 w2) by assumption.
  rewrite !events_since_Ok, !logged_texts_tagged.
  intros [= Heq]. unfold render in Heq.
  apply (f_equal chars) in Heq. rewrite !text_chars in Heq.
  apply (f_equal undump) in Heq. unfold render_with in Heq.
  by rewrite !undump_render_from in Heq.
Qed.

Lemma render_from_alike k n bs1 bs2 :
  char_signed plat = true ->
  Forall2 alike_when_signed bs1 bs2 ->
  render_from (printed plat) k n bs1 = render_from (printed plat) k n bs2.
Proof.
  intros Hs Hall. revert k.
  induction Hall as [|a b bs1 bs2 Hab _ IH]; intros k; [reflexivity|].
  cbn [render_from]. rewrite IH. f_equal.
  destruct Hab as [->|[Ha Hb]]; [reflexivity|].
  by rewrite !printed_high.
Qed.

(** X4. Where plain [char] is signed the dump cannot tell bytes from 0x80 on
    apart: two buffers of the same length that differ only in such bytes are
    logged with the same text. *)
Theorem dump_conflates_signed fuel1 fuel2 level1 level2 buf1 buf2 n
        first1 first2 k1 k2 (w1 w2 : world K) :
  char_signed plat = true ->
  dumpable plat buf1 n -> dumpable plat buf2 n ->
  (Z.to_nat n < fuel1)%nat -> (Z.to_nat n < fuel2)%nat ->
  buf1 !! 0%nat = Some first1 -> buf2 !! 0%nat = Some first2 ->
  sys_malloc (4 * n + 1) (kernel w1) = (true, k1) ->
  sys_malloc (4 * n + 1) (kernel w2) = (true, k2) ->
  Forall2 alike_when_signed (take (Z.to_nat n) buf1) (take (Z.to_nat n) buf2) ->
  logged_texts (events_since w1 (FrameDumper.debug_print_buffer plat fuel1 level1 buf1 n w1))
  = logged_texts (events_since w2 (FrameDumper.debug_print_buffer plat fuel2 level2 buf2 n w2)).
Proof.
  intros Hs Hd1 Hd2 Hf1 Hf2 Hb1 Hb2 Hm1 Hm2 Hall.
  rewrite (dump_logs_line plat fuel1 level1 buf1 n first1 k1 w1) by assumption.
  rewrite (dump_logs_line plat fuel2 level2 buf2 n first2 k2 w2) by assumption.
  rewrite !events_since_Ok, !logged_texts_tagged.
  unfold render_with. rewrite (Forall2_length _ _ _ Hall).
  by rewrite (render_from_alike _ _ _ _ Hs Hall).
Qed.

(** X5. Whatever the input and the outcome, [debug_print_buffer] adds to the
    trace at most one event, a line handed to [debug]: it makes no call on a
    socket. *)
Theorem dump_at_most_one_line fuel level buf n (w : world K) :
  at_most_one_line (events_since w (FrameDumper.debug_print_buffer plat fuel level buf n w)).
Proof.
  unfold FrameDumper.debug_print_buffer, bindM at 1, malloc, bindM at 1, lift_sys.
  destruct (sys_malloc _ _) as [ok k']. unfold ret at 1.
  change (events_since w) with (events_since (A := unit) (World k' (trace w))).
  destruct ok; cbv beta iota; [|left; unfold ret, events_since; simpl; apply drop_all].
  apply bindM_one_line; [apply format_loop_untouched|]. intros st.
  apply bindM_one_line; [apply checked_untouched|]. intros obf.
  apply bindM_one_line; [apply checked_untouched|]. intros first.
  apply bindM_one_line; [apply checked_untouched|]. intros line.
  destruct (FrameDumper.classify level (FrameDumper.char_to_int plat first)) as [lvl f].
  right. exists lvl, f, (text line).
  unfold debug, emit. cbn [kernel trace].
  apply (events_since_Ok (World k' (trace w))).
Qed.

Lemma format_loop_never_ends fuel buf n :
  UINT_MAX < n ->
  forall i obf obfp st (w w' : world K),
    0 <= i <= UINT_MAX ->
    FrameDumper.format_loop plat fuel buf n i obf obfp w <> Ok st w'.
Proof.
  intros Hn. induction fuel as [|fuel IH]; intros i obf obfp st w w' Hi; simpl.
  - discriminate.
  - destruct (Z.ltb_spec i n); [|lia].
    unfold bindM.
    destruct (FrameDumper.format_byte plat buf n i obf obfp w) as [st1 w1| | |];
      try discriminate.
    apply IH. unfold uint, UINT_MAX.
    pose proof (Z.mod_pos_bound (i + 1) (2 ^ 32) ltac:(lia)). lia.
Qed.

(** X6. The counter of the loop is an [unsigned int]: for a length above
    [UINT_MAX] it never reaches the length, and with the allocation done no
    amount of fuel makes the run return. *)
Theorem dump_counter_wraps fuel level buf n k' (w : world K) :
  UINT_MAX < n ->
  sys_malloc (size_t plat (n * 4 + 1)) (kernel w) = (true, k') ->
  forall w', FrameDumper.debug_print_buffer plat fuel level buf n w <> Ok tt w'.
Proof.
  intros Hn Hmalloc w'.
  unfold FrameDumper.debug_print_buffer, bindM at 1, malloc, bindM at 1, lift_sys.
  rewrite Hmalloc. unfold ret at 1. unfold bindM at 1.
  destruct (FrameDumper.format_loop _ _ _ _ _ _ _ _) as [st w2| | |] eqn:Hloop;
    try discriminate.
  exfalso. revert Hloop. apply format_loop_never_ends; [exact Hn|].
  unfold UINT_MAX. lia.
Qed.

(** X7. The size asked of [malloc] is computed in [size_t]: when the product
    wraps to less than 3 the block cannot hold the first two digits and their
    NUL, and the first [snprintf] writes outside it. *)
Theorem dump_size_wraps fuel level buf n first k' (w : world K) :
  0 < n ->
  size_t plat (n * 4 + 1) < 3 ->
  buf !! 0%nat = Some first ->
  sys_malloc (size_t plat (n * 4 + 1)) (kernel w) = (true, k') ->
  FrameDumper.debug_print_buffer plat (S fuel) level buf n w = Fault (World k' (trace w)).
Proof.
  intros Hn Hsmall Hfirst Hmalloc.
  unfold FrameDumper.debug_print_buffer, bindM at 1, malloc, bindM at 1, lift_sys.
  rewrite Hmalloc. unfold ret at 1. unfold bindM at 1.
  cbn [FrameDumper.format_loop].
  destruct (Z.ltb_spec 0 n); [|lia].
  unfold bindM at 1, FrameDumper.format_byte, bindM at 1.
  change (Z.to_nat 0) with 0%nat. rewrite Hfirst. cbn [checked]. unfold ret at 1.
  unfold bindM at 1, snprintf_at. cbn [Z.eqb].
  change (take (Z.to_nat (3 - 1)) _) with (printed plat first).
  rewrite store_chars_overflow; [reflexivity | lia |].
  rewrite repeat_length, length_app, printed_length. simpl. lia.
Qed.

(** X8. A buffer of length 0: the loop does not run and [buf[0]] is read all
    the same. With no byte there the read leaves the object; with one, the
    empty text is logged under the tag of that byte. *)
Theorem dump_empty_buffer fuel level buf k' (w : world K) :
  1 <= SIZE_MAX plat ->
  sys_malloc 1 (kernel w) = (true, k') ->
  (buf = [] ->
   FrameDumper.debug_print_buffer plat (S fuel) level buf 0 w = Fault (World k' (trace w))) /\
  (forall first rest,
      buf = first :: rest ->
      FrameDumper.debug_print_buffer plat (S fuel) level buf 0 w
      = Ok tt (World k' (trace w ++ [tagged_line level first EmptyString]))).
Proof.
  intros Hsize Hmalloc. split.
  - intros ->.
    unfold FrameDumper.debug_print_buffer, bindM at 1, malloc, bindM at 1, lift_sys.
    change (0 * 4 + 1) with 1. rewrite size_t_small by lia. rewrite Hmalloc. reflexivity.
  - intros first rest ->.
    rewrite (dump_logs_line plat (S fuel) level (first :: rest) 0 first k' w);
      [reflexivity | | simpl; lia | reflexivity | exact Hmalloc].
    unfold dumpable, UINT_MAX. cbn [length]. lia.
Qed.
End DumpExtras.

(** Twenty bytes of an announce frame: 40 digits and 6 separator
    characters. *)
Lemma dump_text_length_witness :
  exists line,
    FrameDumper.debug_print_buffer linux_x86_64 32 3 Samples.announce 20 MoreSamples.heap1
    = Ok tt (World MoreSamples.heap1_used
               (trace MoreSamples.heap1 ++ [tagged_line 3 x1b (text line)])) /\
    Z.of_nat (length line) = 46.
Proof.
  change 46 with (render_length 20).
  apply (dump_text_length linux_x86_64 32 3 Samples.announce 20 x1b
           MoreSamples.heap1_used MoreSamples.heap1).
  - unfold dumpable, UINT_MAX, SIZE_MAX. simpl. lia.
  - simpl. lia.
  - reflexivity.
  - reflexivity.
Defined.

Lemma dump_text_alphabet_witness :
  exists line,
    FrameDumper.debug_print_buffer linux_x86_64 8 3 Samples.unknown 4 MoreSamples.heap1
    = Ok tt (World MoreSamples.heap1_used
               (trace MoreSamples.heap1 ++ [tagged_line 3 x99 (text line)])) /\
    Forall (fun c => dump_char c = true) line.
Proof.
  apply (dump_text_alphabet linux_x86_64 8 3 Samples.unknown 4 x99
           MoreSamples.heap1_used MoreSamples.heap1).
  - unfold dumpable, UINT_MAX, SIZE_MAX. simpl. lia.
  - simpl. lia.
  - reflexivity.
  - reflexivity.
Defined.

(** The same four bytes, dumped at two levels from two buffers, on 64-bit
    ARM. *)
Lemma dump_lossless_unsigned_witness :
  take (Z.to_nat 4) Samples.unknown = take (Z.to_nat 4) (Samples.unknown ++ [x00]).
Proof.
  apply (dump_lossless_unsigned linux_aarch64 8 9 3 2 Samples.unknown (Samples.unknown ++ [x00])
           4 4 x99 x99 MoreSamples.heap1_used MoreSamples.heap1_used
           MoreSamples.heap1 MoreSamples.heap1).
  - reflexivity.
  - unfold dumpable, UINT_MAX, SIZE_MAX. simpl. lia.
  - unfold dumpable, UINT_MAX, SIZE_MAX. simpl. lia.
  - simpl. lia.
  - simpl. lia.
  - reflexivity.
  - reflexivity.
  - reflexivity.
  - reflexivity.
  - vm_compute. reflexivity.
Defined.

(** 80 FF and FF 80 on x86-64. *)
Lemma dump_conflates_signed_witness :
  logged_texts (events_since MoreSamples.heap1
                  (FrameDumper.debug_print_buffer linux_x86_64 8 3 Samples.unknown 4
                     MoreSamples.heap1))
  = logged_texts (events_since MoreSamples.heap1
                    (FrameDumper.debug_print_buffer linux_x86_64 8 3 MoreSamples.unknown_swapped 4
                       MoreSamples.heap1)).
Proof.
  apply (dump_conflates_signed linux_x86_64 8 8 3 3 Samples.unknown MoreSamples.unknown_swapped
           4 x99 x99 MoreSamples.heap1_used MoreSamples.heap1_used
           MoreSamples.heap1 MoreSamples.heap1).
  - reflexivity.
  - unfold dumpable, UINT_MAX, SIZE_MAX. simpl. lia.
  - unfold dumpable, UINT_MAX, SIZE_MAX. simpl. lia.
  - simpl. lia.
  - simpl. lia.
  - reflexivity.
  - reflexivity.
  - reflexivity.
  - reflexivity.
  - repeat constructor; unfold byte_value; simpl; lia.
Defined.

(** A length of 2^32 on x86-64. *)
Lemma dump_counter_wraps_witness :
  FrameDumper.debug_print_buffer linux_x86_64 5 3 Samples.unknown (2 ^ 32) MoreSamples.heap1
  <> Ok tt MoreSamples.heap1.
Proof.
  apply (dump_counter_wraps linux_x86_64 5 3 Samples.unknown (2 ^ 32)
           MoreSamples.heap1_used MoreSamples.heap1).
  - unfold UINT_MAX. lia.
  - reflexivity.
Defined.

(** A length of 2^30 on 32-bit ARM: [4 * 2^30 + 1] is 1 in [size_t]. *)
Lemma dump_size_wraps_witness :
  FrameDumper.debug_print_buffer linux_armhf 1 3 Samples.unknown (2 ^ 30) MoreSamples.heap1
  = Fault (World MoreSamples.heap1_used (trace MoreSamples.heap1)).
Proof.
  apply (dump_size_wraps linux_armhf 0 3 Samples.unknown (2 ^ 30) x99
           MoreSamples.heap1_used MoreSamples.heap1).
  - lia.
  - vm_compute. reflexivity.
  - reflexivity.
  - reflexivity.
Defined.

Lemma dump_empty_buffer_witness :
  FrameDumper.debug_print_buffer linux_x86_64 1 3 [] 0 MoreSamples.heap1
  = Fault (World MoreSamples.heap1_used (trace MoreSamples.heap1)) /\
  FrameDumper.debug_print_buffer linux_x86_64 1 3 [x1b] 0 MoreSamples.heap1
  = Ok tt (World MoreSamples.heap1_used
             (trace MoreSamples.heap1 ++ [tagged_line 3 x1b EmptyString])).
Proof.
  assert (Hsize : 1 <= SIZE_MAX linux_x86_64) by (vm_compute; discriminate).
  assert (Hmalloc : sys_malloc 1 (kernel MoreSamples.heap1) = (true, MoreSamples.heap1_used))
    by reflexivity.
  destruct (dump_empty_buffer linux_x86_64 0 3 [] MoreSamples.heap1_used MoreSamples.heap1
              Hsize Hmalloc) as [Hnone _].
  destruct (dump_empty_buffer linux_x86_64 0 3 [x1b] MoreSamples.heap1_used MoreSamples.heap1
              Hsize Hmalloc) as [_ Hsome].
  split; [apply Hnone; reflexivity | apply (Hsome x1b []); reflexivity].
Defined.

(** ** Further properties of [get_self_clock_id] *)

Section IdentityExtras.
Context {K : Type} `{OS K}.

Lemma clock_id_unfold rc ifs k' (w : world K) :
  sys_getifaddrs (kernel w) = ((rc, ifs), k') ->
  rc <> -1 ->
  ClockIdentity.get_self_clock_id w
  = match ClockIdentity.scan ifs fresh_scan (World k' (trace w)) with
    | Ok st w1 =>
        Ok (take 8 (if ClockIdentity.len st =? 6
                    then ClockIdentity.doctor (ClockIdentity.local_clock_id st)
                    else ClockIdentity.local_clock_id st)) w1
    | Exit m w1 => Exit m w1
    | Fault w1 => Fault w1
    | Timeout => Timeout
    end.
Proof.
  intros Hsys Hrc.
  assert (Hstatus : (rc =? -1) = false) by (apply Z.eqb_neq; exact Hrc).
  unfold ClockIdentity.get_self_clock_id, bindM at 1, getifaddrs, lift_sys.
  rewrite Hsys. cbn [fst snd]. rewrite Hstatus. cbn [Z.eqb negb].
  unfold bindM. fold fresh_scan.
  destruct (ClockIdentity.scan ifs fresh_scan _); reflexivity.
Qed.

(** The scan is the step on the selected interface. *)
Lemma scan_first ifs ifa :
  forall st (w : world K),
    ClockIdentity.found st = 0 ->
    ClockIdentity.selected ifs = Some ifa ->
    ClockIdentity.scan ifs st w = ClockIdentity.scan_step ifa st w.
Proof.
  unfold ClockIdentity.selected.
  induction ifs as [|ifa0 ifs IH]; intros st w Hfound Hsel; [discriminate|].
  simpl in Hsel. cbn [ClockIdentity.scan]. unfold bindM at 1.
  destruct (ClockIdentity.eligible ifa0) eqn:Hel.
  - injection Hsel as ->.
    unfold ClockIdentity.eligible in Hel.
    destruct (ifa_addr ifa) as [sa|] eqn:Haddr; [|discriminate].
    apply andb_prop in Hel as [Hfam Hname].
    unfold ClockIdentity.scan_step. rewrite Haddr, Hfam, Hname, Hfound.
    cbn [andb Z.eqb]. destruct sa as [halen addr|f]; [|reflexivity].
    unfold bindM, checked.
    destruct (ClockIdentity.memcpy _ _ _) as [id|]; [|reflexivity].
    unfold ret at 1 2. by apply scan_found.
  - rewrite scan_skips by exact Hel. by apply IH.
Qed.


Lemma drop_repeat {A} (x : A) n m : drop n (repeat x m) = repeat x (m - n).
Proof.
  revert n. induction m as [|m IH]; intros [|n]; simpl; try reflexivity. apply IH.
Qed.

(** X9. When no interface qualifies, [local_clock_id] is returned as it was
    declared: none of its eight bytes was ever written. *)
Theorem clock_id_no_interface rc ifs k' (w : world K) :
  sys_getifaddrs (kernel w) = ((rc, ifs), k') ->
  rc <> -1 ->
  ClockIdentity.selected ifs = None ->
  ClockIdentity.get_self_clock_id w = Ok (repeat None 8) (World k' (trace w)).
Proof.
  intros Hsys Hrc Hsel.
  rewrite (clock_id_unfold rc ifs k') by assumption.
  rewrite scan_none by exact Hsel. reflexivity.
Qed.


(** X11. A hardware address of a length other than 6 that fits the eight
    bytes is returned as it is, and the bytes after it were never written. *)
Theorem clock_id_other_lengths rc ifs k' ifa halen addr (w : world K) :
  sys_getifaddrs (kernel w) = ((rc, ifs), k') ->
  rc <> -1 ->
  ClockIdentity.selected ifs = Some ifa ->
  ifa_addr ifa = Some (Sockaddr_ll halen addr) ->
  0 <= halen <= 8 -> halen <> 6 ->
  halen <= Z.of_nat (length addr) ->
  ClockIdentity.get_self_clock_id w
  = Ok (map Some (take (Z.to_nat halen) addr) ++ repeat None (8 - Z.to_nat halen))
       (World k' (trace w)).
Proof.
  intros Hsys Hrc Hsel Haddr Hrange Hsix Hlen.
  rewrite (clock_id_unfold rc ifs k') by assumption.
  rewrite (scan_selected ifs fresh_scan ifa halen addr
             (map Some (take (Z.to_nat halen) addr) ++ repeat None (8 - Z.to_nat halen)));
    try assumption; try reflexivity.
  - cbn [ClockIdentity.len ClockIdentity.local_clock_id].
    destruct (Z.eqb_spec halen 6) as [|_]; [contradiction|].
    rewrite take_ge; [reflexivity|].
    rewrite length_app, length_map, length_take, repeat_length. lia.
  - unfold ClockIdentity.memcpy, fresh_scan. cbn [ClockIdentity.local_clock_id].
    rewrite repeat_length.
    destruct (Z.leb_spec 0 halen); [|lia].
    destruct (Z.leb_spec halen (Z.of_nat 8)); [|lia].
    destruct (Z.leb_spec halen (Z.of_nat (length addr))); [|lia].
    cbn [andb]. by rewrite drop_repeat.
Qed.

(** X12. A hardware address longer than the eight bytes of [local_clock_id]
    (InfiniBand has 20) makes the [memcpy] write past the array. *)
Theorem clock_id_long_address rc ifs k' ifa halen addr (w : world K) :
  sys_getifaddrs (kernel w) = ((rc, ifs), k') ->
  rc <> -1 ->
  ClockIdentity.selected ifs = Some ifa ->
  ifa_addr ifa = Some (Sockaddr_ll halen addr) ->
  8 < halen ->
  ClockIdentity.get_self_clock_id w = Fault (World k' (trace w)).
Proof.
  intros Hsys Hrc Hsel Haddr Hlong.
  rewrite (clock_id_unfold rc ifs k') by assumption.
  rewrite (scan_first ifs ifa) by (reflexivity || assumption).
  pose proof Hsel as Hel. apply find_some in Hel as [_ Hel].
  unfold ClockIdentity.eligible in Hel. rewrite Haddr in Hel.
  apply andb_prop in Hel as [Hfam Hname].
  unfold ClockIdentity.scan_step. rewrite Haddr, Hfam, Hname.
  cbn [fresh_scan ClockIdentity.found ClockIdentity.local_clock_id andb Z.eqb].
  unfold bindM, checked, ClockIdentity.memcpy. rewrite repeat_length.
  destruct (Z.leb_spec halen (Z.of_nat 8)); [lia|].
  by rewrite andb_false_r.
Qed.
End IdentityExtras.

(** Only the loopback interface and an address that is not a link-layer
    one. *)
Lemma clock_id_no_interface_witness :
  ClockIdentity.get_self_clock_id (Samples.host 0 [Samples.lo; Samples.lo_inet])
  = Ok (repeat None 8) (Samples.host 0 [Samples.lo; Samples.lo_inet]).
Proof.
  apply (clock_id_no_interface 0 [Samples.lo; Samples.lo_inet]
           (kernel (Samples.host 0 [Samples.lo; Samples.lo_inet]))
           (Samples.host 0 [Samples.lo; Samples.lo_inet])).
  - reflexivity.
  - lia.
  - reflexivity.
Defined.


(** A tunnel with a 4-byte address. *)
Lemma clock_id_other_lengths_witness :
  ClockIdentity.get_self_clock_id (Samples.host 0 [Samples.lo; MoreSamples.short4; Samples.eth0])
  = Ok ([Some x0a; Some x00; Some x00; Some x01] ++ repeat None 4)
       (Samples.host 0 [Samples.lo; MoreSamples.short4; Samples.eth0]).
Proof.
  apply (clock_id_other_lengths 0 [Samples.lo; MoreSamples.short4; Samples.eth0]
           (kernel (Samples.host 0 [Samples.lo; MoreSamples.short4; Samples.eth0]))
           MoreSamples.short4 4 [x0a; x00; x00; x01; x00; x00; x00; x00]
           (Samples.host 0 [Samples.lo; MoreSamples.short4; Samples.eth0])).
  - reflexivity.
  - lia.
  - reflexivity.
  - reflexivity.
  - lia.
  - lia.
  - simpl. lia.
Defined.

(** An InfiniBand interface ahead of [eth0]. *)
Lemma clock_id_long_address_witness :
  ClockIdentity.get_self_clock_id (Samples.host 0 [Samples.lo; MoreSamples.ib_long; Samples.eth0])
  = Fault (Samples.host 0 [Samples.lo; MoreSamples.ib_long; Samples.eth0]).
Proof.
  apply (clock_id_long_address 0 [Samples.lo; MoreSamples.ib_long; Samples.eth0]
           (kernel (Samples.host 0 [Samples.lo; MoreSamples.ib_long; Samples.eth0]))
           MoreSamples.ib_long 20 [x80; x00; x00; x48; xfe; x80; x00; x00]
           (Samples.host 0 [Samples.lo; MoreSamples.ib_long; Samples.eth0])).
  - reflexivity.
  - lia.
  - reflexivity.
  - reflexivity.
  - lia.
Defined.

(** ** Further properties of [open_sockets_at_port] *)

(** *** The port as a string *)

Lemma chars_length s : length (chars s) = String.length s.
Proof. induction s as [|c s IH]; simpl; [reflexivity | by rewrite IH]. Qed.

Lemma text_take_chars s n : (String.length s <= n)%nat -> text (take n (chars s)) = s.
Proof.
  intros Hn. rewrite take_ge by (rewrite chars_length; lia).
  apply string_of_list_ascii_of_string.
Qed.

(** A number below [10 ^ n] has at most [n] digits. *)
Lemma pretty_N_go_length n :
  forall x s, (x < 10 ^ N.of_nat n)%N ->
              (String.length (pretty_N_go x s) <= String.length s + n)%nat.
Proof.
  induction n as [|n IH]; intros x s Hx.
  - assert (x = 0%N) as -> by (simpl in Hx; lia).
    rewrite pretty_N_go_0. lia.
  - destruct (N.eq_dec x 0%N) as [->|Hpos].
    + rewrite pretty_N_go_0. lia.
    + rewrite pretty_N_go_step by lia.
      etransitivity; [apply IH|simpl; lia].
      rewrite Nat2N.inj_succ, N.pow_succ_r' in Hx.
      apply N.Div0.div_lt_upper_bound. lia.
Qed.

Lemma fmt_d_length port_ :
  0 <= port_ < 2 ^ 16 -> (String.length (fmt_d port_) <= 5)%nat.
Proof.
  intros Hport. unfold fmt_d, pretty, pretty_Z.
  destruct port_ as [|x|x]; [simpl; lia| |lia].
  unfold pretty, pretty_positive, pretty, pretty_N.
  destruct (decide (N.pos x = 0%N)); [discriminate|].
  apply (pretty_N_go_length 5 (N.pos x) EmptyString). simpl. lia.
Qed.

(** X13. [portstr] has room for every port: the text given to the resolver
    is the port in decimal, never cut short. *)
Theorem portstr_not_truncated port_ :
  0 <= port_ < 2 ^ 16 ->
  SocketOpener.portstr port_ = fmt_d port_ /\
  (String.length (SocketOpener.portstr port_) <= 5)%nat.
Proof.
  intros Hport. pose proof (fmt_d_length port_ Hport) as Hlen.
  unfold SocketOpener.portstr.
  rewrite text_take_chars by lia. by split.
Qed.

Section OpenExtras.
Context {K : Type} `{OS K}.

Local Ltac read_trace :=
  cbn [trace]; rewrite <- ?app_assoc; cbn [app].

Lemma bindM_Exit_inv {S A B} (c : M S A) (f : A -> M S B) s m s' :
  bindM c f s = Exit m s' ->
  c s = Exit m s' \/ exists a s1, c s = Ok a s1 /\ f a s1 = Exit m s'.
Proof.
  unfold bindM. destruct (c s) as [a s1|m1 s1| |]; try discriminate; intros Hrun.
  - right. by exists a, s1.
  - injection Hrun as -> ->. by left.
Qed.

(** *** Why a run ends the process *)

Lemma open_one_Exit port_ p b m (w w' : world K) :
  SocketOpener.open_one port_ p b w = Exit m w' ->
  exists err new,
    m = SocketOpener.listen_failure (ai_family p) port_ err /\
    trace w' = trace w ++ new /\
    Exists (fun e => SocketOpener.failed_setup e = true) new.
Proof.
  unfold SocketOpener.open_one, SocketOpener.setup_socket.
  run_calls; intros Hex; try discriminate; injection Hex as <- <-.
  all: try (exfalso; congruence).
  all: eexists _, _; split; [reflexivity|]; split; [read_trace; reflexivity|].
  all: repeat first
         [ apply Exists_cons_hd; simpl; apply negb_true_iff, Z.eqb_neq; assumption
         | apply Exists_cons_tl ].
Qed.

Lemma open_each_Exit port_ info :
  forall b m (w w' : world K),
    SocketOpener.open_each port_ info b w = Exit m w' ->
    exists q err new,
      q ∈ info /\
      m = SocketOpener.listen_failure (ai_family q) port_ err /\
      trace w' = trace w ++ new /\
      Exists (fun e => SocketOpener.failed_setup e = true) new.
Proof.
  induction info as [|p info IH]; intros b m w w' Hrun; [discriminate|].
  cbn [SocketOpener.open_each] in Hrun.
  apply bindM_Exit_inv in Hrun as [Hone|(b1 & w1 & Hone & Hrest)].
  - apply open_one_Exit in Hone as (err & new & -> & Htr & Hex).
    exists p, err, new. split; [apply elem_of_cons; by left|]. by repeat split.
  - destruct (IH _ _ _ _ Hrest) as (q & err & new2 & Hq & -> & Htr & Hex).
    assert (exists new1, trace w1 = trace w ++ new1) as [new1 Htr1]
      by (eapply open_one_trace; rewrite Hone; reflexivity).
    exists q, err, (new1 ++ new2).
    split; [apply elem_of_cons; by right|]. split; [reflexivity|].
    split; [by rewrite Htr, Htr1, <- app_assoc|].
    apply Exists_app. by right.
Qed.

(** X14. The process is ended for two reasons only: the resolver failed,
    and then no call on a socket was made; or a [setsockopt] or a [bind] on
    a created socket did not return 0. The two messages are written out. *)
Theorem open_sockets_exit_reasons port_ b m (w w' : world K) :
  SocketOpener.open_sockets_at_port port_ b w = Exit m w' ->
  (exists rc, rc <> 0 /\
              fst (fst (sys_getaddrinfo (SocketOpener.portstr port_) SocketOpener.hints
                          (kernel w))) = rc /\
              m = {| fmt := "getifaddrs: %s"; args := [AStr (gai_strerror rc)] |} /\
              trace w' = trace w) \/
  (exists q err,
      q ∈ SocketOpener.resolved port_ w /\
      m = {| fmt := "unable to listen on %s port %d. The error is: "
                    +:+ String (ascii_of_nat 34) EmptyString +:+ "%s"
                    +:+ String (ascii_of_nat 34) EmptyString
                    +:+ ". Daemon must run as root. Or is a separate PTP daemon running?";
             args := [AStr (if ai_family q =? AF_INET6 then "IPv6" else "IPv4");
                      AInt port_; AStr err] |} /\
      Exists (fun e => SocketOpener.failed_setup e = true)
             (events_since w (SocketOpener.open_sockets_at_port port_ b w))).
Proof.
  intros Hrun.
  destruct (open_sockets_unfold port_ b w) as (rc & k1 & Hsys & Heq).
  rewrite Hrun in Heq |- *. symmetry in Heq.
  destruct (Z.eqb_spec rc 0) as [->|Hrc].
  - right.
    apply open_each_Exit in Heq as (q & err & new & Hq & -> & Htr & Hex).
    exists q, err. split; [exact Hq|]. split; [reflexivity|].
    rewrite (events_since_trace w w' _ new); [exact Hex | reflexivity | exact Htr].
  - left. injection Heq as <- <-. exists rc. rewrite Hsys. by repeat split.
Qed.

(** *** What a run that returns has done *)

Lemma socket_calls_app t1 t2 : socket_calls (t1 ++ t2) = socket_calls t1 ++ socket_calls t2.
Proof. apply omap_app. Qed.

Lemma socket_calls_listening port_ p fd fl rs :
  socket_calls (SocketOpener.listening_events port_ p fd fl rs) = [socket_request p].
Proof.
  unfold SocketOpener.listening_events. by destruct (ai_family p =? AF_INET6).
Qed.

Lemma bound_listening port_ p fd fl rs :
  bound_and_stamped fd (SocketOpener.listening_events port_ p fd fl rs).
Proof.
  unfold bound_and_stamped, SocketOpener.listening_events.
  split; [exists (ai_addr p)|];
    destruct (ai_family p =? AF_INET6); apply list_elem_of_In; simpl; tauto.
Qed.

Lemma bound_app fd t1 t2 :
  bound_and_stamped fd t1 \/ bound_and_stamped fd t2 -> bound_and_stamped fd (t1 ++ t2).
Proof.
  unfold bound_and_stamped.
  intros [[[addr Hb] Hs]|[[addr Hb] Hs]]; (split; [exists addr|]); apply elem_of_app; tauto.
Qed.

Lemma open_each_calls port_ info :
  forall b b' (w w' : world K),
    SocketOpener.open_each port_ info b w = Ok b' w' ->
    exists new,
      trace w' = trace w ++ new /\
      socket_calls new = map socket_request info /\
      (forall fd, fd ∈ SocketOpener.created new -> bound_and_stamped fd new) /\
      (SocketOpener.sockets_open b <= SocketOpener.sockets_open b')%nat /\
      (forall i, (SocketOpener.sockets_open b' <= i)%nat ->
                 SocketOpener.sockets b' !! i = SocketOpener.sockets b !! i).
Proof.
  induction info as [|p info IH]; intros b b' w w' Hrun.
  - injection Hrun as <- <-. exists []. rewrite app_nil_r.
    split; [reflexivity|]. split; [reflexivity|].
    split; [intros fd Hfd; by apply elem_of_nil in Hfd|]. split; [lia|]. reflexivity.
  - cbn [SocketOpener.open_each] in Hrun.
    apply bindM_Ok_inv in Hrun as (b1 & w1 & Hone & Hrest).
    destruct (IH _ _ _ _ Hrest) as (new2 & Htr & Hcalls & Hbound & Hmono & Hframe).
    apply open_one_Ok in Hone
      as [[-> Hone]|(fd & fl & rs & Hfd & Hlt & -> & Hone)].
    + exists ([EvSocket (ai_family p) (ai_socktype p) IPPROTO_UDP (-1)] ++ new2).
      rewrite Htr, Hone, <- app_assoc, socket_calls_app, created_app, Hcalls.
      change (SocketOpener.created [EvSocket (ai_family p) (ai_socktype p) IPPROTO_UDP (-1)])
        with (@nil Z).
      split; [reflexivity|]. split; [reflexivity|].
      split; [|by split].
      intros fd Hfd. apply bound_app. right. by apply Hbound.
    + destruct (created_listening port_ p fd fl rs Hfd) as [Hcr _].
      cbn [SocketOpener.sockets_open SocketOpener.sockets] in *.
      exists (SocketOpener.listening_events port_ p fd fl rs ++ new2).
      rewrite Htr, Hone, <- app_assoc, socket_calls_app, created_app, Hcalls, Hcr,
        socket_calls_listening.
      split; [reflexivity|]. split; [reflexivity|].
      split; [|split; [lia|]].
      * intros fd' Hin. apply bound_app.
        apply elem_of_app in Hin as [Hin|Hin].
        -- left. apply list_elem_of_singleton in Hin as ->. apply bound_listening.
        -- right. by apply Hbound.
      * intros i Hi. rewrite Hframe by exact Hi.
        apply list_lookup_insert_ne. lia.
Qed.

(** A run of [open_sockets_at_port] that returns, read as a run of the
    loop. *)
Lemma open_sockets_Ok_events port_ b b' (w w' : world K) :
  SocketOpener.open_sockets_at_port port_ b w = Ok b' w' ->
  exists k1,
    SocketOpener.open_each port_ (SocketOpener.resolved port_ w) b (World k1 (trace w))
    = Ok b' w' /\
    trace w' = trace w ++ events_since w (Ok b' w').
Proof.
  intros Hrun. apply open_sockets_Ok in Hrun as (k1 & _ & Hrun).
  exists k1. split; [exact Hrun|].
  destruct (open_each_Ok _ _ _ _ _ _ Hrun) as (new & Htr & _).
  cbn [trace] in Htr.
  by rewrite (events_since_trace w w' _ new).
Qed.

(** X15. A call that returns asked for one socket for each family the
    resolver gave, in the resolver's order, each with the family and the
    type of its entry and the protocol UDP. *)
Theorem open_sockets_one_socket_per_family port_ b b' (w w' : world K) :
  SocketOpener.open_sockets_at_port port_ b w = Ok b' w' ->
  socket_calls (events_since w (Ok b' w'))
  = map socket_request (SocketOpener.resolved port_ w).
Proof.
  intros Hrun. apply open_sockets_Ok_events in Hrun as (k1 & Hrun & Hev).
  destruct (open_each_calls _ _ _ _ _ _ Hrun) as (new & Htr & Hcalls & _).
  cbn [trace] in Htr. rewrite Hev in Htr. apply app_inv_head in Htr. by rewrite Htr.
Qed.


(** X17. A call that returns leaves the slots from the new count on as they
    were: it writes the slots between the old count and the new one only. *)
Theorem open_sockets_frame port_ b b' i (w w' : world K) :
  SocketOpener.open_sockets_at_port port_ b w = Ok b' w' ->
  (SocketOpener.sockets_open b' <= i)%nat ->
  SocketOpener.sockets b' !! i = SocketOpener.sockets b !! i.
Proof.
  intros Hrun Hi. apply open_sockets_Ok_events in Hrun as (k1 & Hrun & _).
  destruct (open_each_calls _ _ _ _ _ _ Hrun) as (new & _ & _ & _ & _ & Hframe).
  by apply Hframe.
Qed.

(** X18. The count stays within the array: a bundle whose count is at most
    its capacity is so again when the call returns. *)
Theorem open_sockets_count_in_range port_ b b' (w w' : world K) :
  SocketOpener.open_sockets_at_port port_ b w = Ok b' w' ->
  (SocketOpener.sockets_open b <= length (SocketOpener.sockets b))%nat ->
  (SocketOpener.sockets_open b' <= length (SocketOpener.sockets b'))%nat.
Proof.
  intros Hrun Hcap. apply open_sockets_Ok_events in Hrun as (k1 & Hrun & _).
  destruct (open_each_Ok _ _ _ _ _ _ Hrun) as (new & _ & Hcount & _ & Hlen & _ & Hrecs).
  rewrite Hcount, Hlen.
  destruct (SocketOpener.created new) as [|fd0 fds] eqn:Hcr using rev_ind; [simpl; lia|].
  clear IHfds.
  destruct (Hrecs (length fds) fd0) as (Hrec & _).
  { rewrite lookup_app_r by lia. by rewrite Nat.sub_diag. }
  apply lookup_lt_Some in Hrec. rewrite Hlen in Hrec.
  rewrite length_app. simpl. lia.
Qed.

(** X19. The code does not check the capacity. On a bundle that is full a
    call returns only if every family's socket was refused, and then the
    bundle is as it was; a family whose socket is set up ends the run
    outside the array. *)
Theorem open_sockets_full_bundle port_ b (w : world K) :
  (length (SocketOpener.sockets b) <= SocketOpener.sockets_open b)%nat ->
  (forall b' w',
      SocketOpener.open_sockets_at_port port_ b w = Ok b' w' ->
      b' = b /\
      SocketOpener.created (events_since w (Ok b' w')) = [] /\
      SocketOpener.refused (events_since w (Ok b' w'))
      = length (SocketOpener.resolved port_ w)) /\
  (forall p fd k1,
      sys_socket (ai_family p) (ai_socktype p) IPPROTO_UDP (kernel w) = (fd, k1) ->
      fd <> -1 ->
      forall b' w', SocketOpener.open_one port_ p b w <> Ok b' w').
Proof.
  intros Hfull. split.
  - intros b' w' Hrun. apply open_sockets_Ok_events in Hrun as (k1 & Hrun & Hev).
    destruct (open_each_Ok _ _ _ _ _ _ Hrun)
      as (new & Htr & Hcount & Hall & Hlen & Hframe & Hrecs).
    cbn [trace] in Htr. rewrite Hev in Htr. apply app_inv_head in Htr. rewrite Htr.
    assert (Hnone : SocketOpener.created new = []).
    { destruct (SocketOpener.created new) as [|fd0 fds]; [reflexivity|].
      destruct (Hrecs 0%nat fd0 eq_refl) as (Hrec & _).
      apply lookup_lt_Some in Hrec. lia. }
    rewrite Hnone in *. simpl in Hcount, Hall.
    split; [|by split].
    destruct b as [n s], b' as [n' s']; simpl in *. f_equal; [lia|].
    apply list_eq. intros i. destruct (Nat.lt_ge_cases i n) as [Hi|Hi].
    + apply Hframe. lia.
    + rewrite !lookup_ge_None_2 by lia. reflexivity.
  - intros p fd k1 Hsock Hfd b' w'.
    unfold SocketOpener.open_one, SocketOpener.setup_socket, bindM at 1, socket, lift_sys.
    rewrite Hsock.
    run_calls; try discriminate; try contradiction.
    all: exfalso;
      match goal with
      | Hn : SocketOpener.set_number _ _ = Some _,
        Hp : SocketOpener.set_port _ _ = Some _ |- _ =>
          destruct (append_record _ _ _ _ _ Hn Hp) as [Hlt _]; lia
      end.
Qed.

(** X20. Two calls in a row, as for ports 319 and 320: the second keeps the
    records of the first, its own records follow them, and the count is the
    one on entry plus the sockets created by both. *)
Theorem open_sockets_twice p1 p2 b b2 (w w2 : world K) :
  (b1 <- SocketOpener.open_sockets_at_port p1 b ;;
   SocketOpener.open_sockets_at_port p2 b1) w = Ok b2 w2 ->
  exists b1 w1,
    SocketOpener.open_sockets_at_port p1 b w = Ok b1 w1 /\
    SocketOpener.open_sockets_at_port p2 b1 w1 = Ok b2 w2 /\
    let first := SocketOpener.created (events_since w (Ok b1 w1)) in
    let second := SocketOpener.created (events_since w1 (Ok b2 w2)) in
    SocketOpener.created (events_since w (Ok b2 w2)) = first ++ second /\
    SocketOpener.sockets_open b2
    = (SocketOpener.sockets_open b + length first + length second)%nat /\
    (forall j fd, first !! j = Some fd ->
                  SocketOpener.sockets b2 !! (SocketOpener.sockets_open b + j)%nat
                  = Some (SocketOpener.record_for p1 fd)) /\
    (forall j fd, second !! j = Some fd ->
                  SocketOpener.sockets b2
                    !! (SocketOpener.sockets_open b + length first + j)%nat
                  = Some (SocketOpener.record_for p2 fd)).
Proof.
  intros Hrun. apply bindM_Ok_inv in Hrun as (b1 & w1 & Hone & Htwo).
  exists b1, w1. split; [exact Hone|]. split; [exact Htwo|].
  apply open_sockets_Ok_events in Hone as (k1 & Hone & Hev1).
  apply open_sockets_Ok_events in Htwo as (k2 & Htwo & Hev2).
  destruct (open_each_Ok _ _ _ _ _ _ Hone) as (new1 & Htr1 & Hcount1 & _ & _ & _ & Hrecs1).
  destruct (open_each_Ok _ _ _ _ _ _ Htwo) as (new2 & Htr2 & Hcount2 & _ & _ & Hframe2 & Hrecs2).
  cbn [trace] in Htr1, Htr2.
  assert (Hnew1 : events_since w (Ok b1 w1) = new1)
    by (rewrite Hev1 in Htr1; by apply app_inv_head in Htr1).
  assert (Hnew2 : events_since w1 (Ok b2 w2) = new2)
    by (rewrite Hev2 in Htr2; by apply app_inv_head in Htr2).
  rewrite Hnew1, Hnew2. cbv zeta.
  split.
  - rewrite (events_since_trace w w2 _ (new1 ++ new2)); [apply created_app | reflexivity|].
    by rewrite Htr2, Htr1, <- app_assoc.
  - split; [lia|]. split.
    + intros j fd Hj. destruct (Hrecs1 j fd Hj) as (Hrec & _).
      rewrite Hframe2; [exact Hrec|].
      apply lookup_lt_Some in Hj. lia.
    + intros j fd Hj. destruct (Hrecs2 j fd Hj) as (Hrec & _).
      by rewrite <- Hcount1.
Qed.
End OpenExtras.

(** The two ports of the protocol. *)
Lemma portstr_not_truncated_witness :
  SocketOpener.portstr 320 = fmt_d 320 /\
  (String.length (SocketOpener.portstr 320) <= 5)%nat.
Proof. apply (portstr_not_truncated 320). lia. Defined.

(** A resolver that fails with code -2. *)
Lemma open_sockets_exit_reasons_witness :
  (exists rc, rc <> 0 /\
              fst (fst (sys_getaddrinfo (SocketOpener.portstr 319) SocketOpener.hints
                          (kernel MoreSamples.no_resolver))) = rc /\
              SocketOpener.resolver_failure (K := Script.script) (-2)
              = {| fmt := "getifaddrs: %s"; args := [AStr (gai_strerror rc)] |} /\
              trace MoreSamples.no_resolver = trace MoreSamples.no_resolver) \/
  (exists q err,
      q ∈ SocketOpener.resolved 319 MoreSamples.no_resolver /\
      SocketOpener.resolver_failure (K := Script.script) (-2)
      = {| fmt := "unable to listen on %s port %d. The error is: "
                  +:+ String (ascii_of_nat 34) EmptyString +:+ "%s"
                  +:+ String (ascii_of_nat 34) EmptyString
                  +:+ ". Daemon must run as root. Or is a separate PTP daemon running?";
           args := [AStr (if ai_family q =? AF_INET6 then "IPv6" else "IPv4");
                    AInt 319; AStr err] |} /\
      Exists (fun e => SocketOpener.failed_setup e = true)
             (events_since MoreSamples.no_resolver
                (SocketOpener.open_sockets_at_port 319 Samples.empty_bundle
                   MoreSamples.no_resolver))).
Proof.
  apply (open_sockets_exit_reasons 319 Samples.empty_bundle
           (SocketOpener.resolver_failure (-2)) MoreSamples.no_resolver MoreSamples.no_resolver).
  vm_compute. reflexivity.
Defined.

Lemma open_sockets_one_socket_per_family_witness :
  socket_calls (events_since (Samples.net Samples.v6_refused)
                  (Ok Samples.bundle_320 MoreSamples.after_320))
  = map socket_request (SocketOpener.resolved 320 (Samples.net Samples.v6_refused)).
Proof.
  apply (open_sockets_one_socket_per_family 320 Samples.bundle_319 Samples.bundle_320
           (Samples.net Samples.v6_refused) MoreSamples.after_320).
  vm_compute. reflexivity.
Defined.


Lemma open_sockets_frame_witness :
  SocketOpener.sockets Samples.bundle_320 !! 3%nat
  = SocketOpener.sockets Samples.bundle_319 !! 3%nat.
Proof.
  apply (open_sockets_frame 320 Samples.bundle_319 Samples.bundle_320 3
           (Samples.net Samples.v6_refused) MoreSamples.after_320).
  - vm_compute. reflexivity.
  - simpl. lia.
Defined.

Lemma open_sockets_count_in_range_witness :
  (SocketOpener.sockets_open Samples.bundle_320
   <= length (SocketOpener.sockets Samples.bundle_320))%nat.
Proof.
  apply (open_sockets_count_in_range 320 Samples.bundle_319 Samples.bundle_320
           (Samples.net Samples.v6_refused) MoreSamples.after_320).
  - vm_compute. reflexivity.
  - simpl. lia.
Defined.

(** A bundle of two slots, both in use: with every socket refused the call
    returns; with descriptor 3 created the family does not return. *)
Lemma open_sockets_full_bundle_witness :
  SocketOpener.refused
    (events_since MoreSamples.all_refused
       (Ok MoreSamples.full_bundle MoreSamples.after_refusals))
  = length (SocketOpener.resolved 319 MoreSamples.all_refused) /\
  SocketOpener.open_one 319 Samples.v4 MoreSamples.full_bundle (Samples.net Samples.both_open)
  <> Ok MoreSamples.full_bundle (Samples.net Samples.both_open).
Proof.
  assert (Hfull : (length (SocketOpener.sockets MoreSamples.full_bundle)
                   <= SocketOpener.sockets_open MoreSamples.full_bundle)%nat)
    by (simpl; lia).
  destruct (open_sockets_full_bundle 319 MoreSamples.full_bundle MoreSamples.all_refused Hfull)
    as [Hret _].
  destruct (open_sockets_full_bundle 319 MoreSamples.full_bundle
              (Samples.net Samples.both_open) Hfull) as [_ Hnot].
  split.
  - destruct (Hret MoreSamples.full_bundle MoreSamples.after_refusals) as (_ & _ & Href);
      [vm_compute; reflexivity | exact Href].
  - apply (Hnot Samples.v4 3 (snd (Script.next_int (kernel (Samples.net Samples.both_open))))).
    + reflexivity.
    + lia.
Defined.

(** Ports 319 and 320 from an empty bundle: descriptors 3 and 4, then 5. *)
Lemma open_sockets_twice_witness :
  exists b1 w1,
    SocketOpener.open_sockets_at_port 319 Samples.empty_bundle MoreSamples.two_ports = Ok b1 w1 /\
    SocketOpener.open_sockets_at_port 320 b1 w1 = Ok Samples.bundle_320 MoreSamples.after_both.
Proof.
  assert (Hrun : (b1 <- SocketOpener.open_sockets_at_port 319 Samples.empty_bundle ;;
                  SocketOpener.open_sockets_at_port 320 b1) MoreSamples.two_ports
                 = Ok Samples.bundle_320 MoreSamples.after_both)
    by (vm_compute; reflexivity).
  destruct (open_sockets_twice 319 320 Samples.empty_bundle Samples.bundle_320
              MoreSamples.two_ports MoreSamples.after_both Hrun)
    as (b1 & w1 & Hone & Htwo & _).
  exists b1, w1. split; [exact Hone | exact Htwo].
Defined.
